(** * Student portal client: dashboard.js and signup.js

    A shallow embedding of the browser-side code of the student portal:
    the status channel, the course-list renderer, the dashboard session
    (fetch, enroll, disenroll, mark finished, click delegation, timers)
    and the signup form handler.

    Conventions of the embedding.
    - A JavaScript string is a [string]; one character stands for one
      UTF-16 code unit (those below 256), so [String.length] is the
      [.length] of the source.
    - A JSON number is an integer [Z], printed in decimal (course ids,
      HTTP status codes).
    - The DOM elements looked up by id at the top of each script exist.
    - An [async] function runs to its end within the event that started
      it; the answers of the network are an input ([env]).
    - Of a console call the first argument is kept; [response.text()]
      does not fail. *)

From Stdlib Require Import String Ascii List ZArith Lia Bool DecimalString.
Import ListNotations.
Local Open Scope string_scope.
Local Open Scope Z_scope.

(** ** JavaScript values, as [JSON.parse] and the DOM hand them to the code *)

Module JS.

#[local] Set Warnings "-register-all".

Inductive value : Type :=
| VUndefined
| VNull
| VBool (b : bool)
| VNum (n : Z)
| VStr (s : string)
| VArr (items : list value)
| VObj (fields : list (string * value)).

(** ToBoolean: what [if (v)], [!v] and [v || w] test. *)
Definition truthy (v : value) : bool :=
  match v with
  | VUndefined | VNull => false
  | VBool b => b
  | VNum n => negb (n =? 0)
  | VStr s => negb (s =? EmptyString)%string
  | VArr _ | VObj _ => true
  end.

Definition nullish (v : value) : bool :=
  match v with
  | VUndefined | VNull => true
  | _ => false
  end.

(** [a || b] *)
Definition or_else (a b : value) : value := if truthy a then a else b.

(** [a && b] *)
Definition and_then (a b : value) : value := if truthy a then b else a.

(** [v === 'lit'] for a string literal. *)
Definition is_str (v : value) (lit : string) : bool :=
  match v with
  | VStr s => (s =? lit)%string
  | _ => false
  end.

(** [v === 0] *)
Definition is_zero (v : value) : bool :=
  match v with
  | VNum 0 => true
  | _ => false
  end.

Definition number_to_string (n : Z) : string :=
  NilZero.string_of_int (Z.to_int n).

(** ToString, as a template literal [`${v}`] applies it. *)
Fixpoint to_string (v : value) : string :=
  match v with
  | VUndefined => "undefined"
  | VNull => "null"
  | VBool true => "true"
  | VBool false => "false"
  | VNum n => number_to_string n
  | VStr s => s
  | VArr items =>
      (fix join (l : list value) : string :=
         match l with
         | [] => EmptyString
         | x :: rest =>
             let sx := if nullish x then EmptyString else to_string x in
             match rest with
             | [] => sx
             | _ :: _ => sx ++ "," ++ join rest
             end
         end) items
  | VObj _ => "[object Object]"
  end.

Fixpoint assoc (key : string) (fields : list (string * value)) : value :=
  match fields with
  | [] => VUndefined
  | (k, v) :: rest => if (k =? key)%string then v else assoc key rest
  end.

(** [v.key] on a value that is neither [null] nor [undefined]: the own
    properties of a parsed object, and [length] of strings and arrays.
    [None] is the TypeError of a property read on [null] or [undefined]. *)
Definition prop (v : value) (key : string) : option value :=
  match v with
  | VUndefined | VNull => None
  | VObj fields => Some (assoc key fields)
  | VArr items =>
      Some (if (key =? "length")%string then VNum (Z.of_nat (List.length items))
            else VUndefined)
  | VStr s =>
      Some (if (key =? "length")%string then VNum (Z.of_nat (String.length s))
            else VUndefined)
  | VBool _ | VNum _ => Some VUndefined
  end.

(** [v?.key] *)
Definition opt_prop (v : value) (key : string) : value :=
  match prop v key with
  | Some w => w
  | None => VUndefined
  end.

(** [s.startsWith(lit)] *)
Fixpoint startsWith (s lit : string) {struct lit} : bool :=
  match lit with
  | EmptyString => true
  | String c lit' =>
      match s with
      | EmptyString => false
      | String d s' => Ascii.eqb d c && startsWith s' lit'
      end
  end.

(** [s.includes(lit)] *)
Fixpoint includes (s lit : string) : bool :=
  startsWith s lit ||
  match s with
  | EmptyString => false
  | String _ s' => includes s' lit
  end.

(** What an assignment to [textContent] stores: the string of the value,
    and the empty string for [null] and [undefined]. *)
Definition text_of (v : value) : string :=
  if nullish v then EmptyString else to_string v.

End JS.
Import JS.

(** ** A state and exception monad for handlers *)

Inductive exn : Type :=
| TypeError       (* property read on null, call of a non-function *)
| NetworkFailure  (* fetch rejected *)
| SyntaxError.    (* response.json() on a body that is not JSON *)

Inductive res (A : Type) : Type :=
| Val (a : A)
| Exn (e : exn).
Arguments Val {A} a.
Arguments Exn {A} e.

Definition M (St A : Type) : Type := St -> res A * St.

Definition ret {St A} (a : A) : M St A := fun s => (Val a, s).

Definition bind {St A B} (m : M St A) (k : A -> M St B) : M St B :=
  fun s =>
    match m s with
    | (Val a, s') => k a s'
    | (Exn e, s') => (Exn e, s')
    end.

Definition throw {St A} (e : exn) : M St A := fun s => (Exn e, s).

(** [try { m } catch (error) { handler }] *)
Definition try_catch {St A} (m : M St A) (handler : exn -> M St A) : M St A :=
  fun s =>
    match m s with
    | (Val a, s') => (Val a, s')
    | (Exn e, s') => handler e s'
    end.

Definition modify {St} (f : St -> St) : M St unit := fun s => (Val tt, f s).

Definition gets {St A} (f : St -> A) : M St A := fun s => (Val (f s), s).

(** A property read that throws on [null] and [undefined]. *)
Definition read {St} (v : value) (key : string) : M St value :=
  match prop v key with
  | Some w => ret w
  | None => throw TypeError
  end.

Declare Scope js_scope.
Delimit Scope js_scope with js.
Notation "x <- m ;; k" := (bind m (fun x => k))
  (at level 61, m at next level, right associativity) : js_scope.
Notation "m ;; k" := (bind m (fun _ => k))
  (at level 61, right associativity) : js_scope.
Local Open Scope js_scope.

Fixpoint forEach {St A} (l : list A) (f : A -> M St unit) : M St unit :=
  match l with
  | [] => ret tt
  | x :: rest => f x ;; forEach rest f
  end.

(** ** The network, as the handlers see it *)

Record response : Type := mkResponse {
  status : Z;
  statusText : string;
  json_body : option value;   (* [None]: the body is not JSON *)
  text_body : string
}.

Inductive fetch_outcome : Type :=
| Rejected                       (* the request never completes *)
| Responded (r : response).

(** [response.ok] *)
Definition ok (r : response) : bool := (200 <=? status r) && (status r <=? 299).

Record request : Type := mkRequest {
  method : string;
  url : string;
  body : option value            (* the object given to JSON.stringify *)
}.

(** [await response.json()] *)
Definition response_json {St} (r : response) : M St value :=
  match json_body r with
  | Some v => ret v
  | None => throw SyntaxError
  end.

(** [await response.json().catch(() => null)] *)
Definition response_json_or_null (r : response) : value :=
  match json_body r with
  | Some v => v
  | None => VNull
  end.

Inductive level : Type := LogLevel | WarnLevel | ErrorLevel.

(** [classList.add] and [classList.remove] on an ordered token set. *)
Definition class_remove (tok : string) (cl : list string) : list string :=
  filter (fun c => negb (c =? tok)%string) cl.

Definition class_add (tok : string) (cl : list string) : list string :=
  if existsb (fun c => (c =? tok)%string) cl then cl else cl ++ [tok].

Definition class_contains (tok : string) (cl : list string) : bool :=
  existsb (fun c => (c =? tok)%string) cl.

(** ** The dashboard page *)

Module Dashboard.

(** A child of one of the course lists: an [li] with its markup. *)
Inductive li : Type := Li (innerHTML : string).

(** The callbacks dashboard.js hands to [setTimeout]. *)
Inductive callback : Type :=
| ClearStatus    (* lines 35-38 *)
| GoToLogin.     (* line 98 *)

Record timer : Type := mkTimer { action : callback; delay : Z }.

Record page : Type := mkPage {
  studentName : string;          (* #student-name textContent *)
  enrolledList : list li;        (* #enrolled-courses-list children *)
  availableList : list li;       (* #available-courses-list children *)
  finishedList : list li;        (* #finished-courses-list children *)
  statusMessage : string;        (* #status-message textContent *)
  statusClasses : list string;   (* #status-message classList *)
  location : string;             (* window.location.href *)
  timers : list timer;           (* pending setTimeout callbacks *)
  console : list (level * string);
  requests : list request        (* every fetch issued so far *)
}.

Definition set_studentName (x : string) (p : page) : page :=
  mkPage x (enrolledList p) (availableList p) (finishedList p) (statusMessage p)
    (statusClasses p) (location p) (timers p) (console p) (requests p).
Definition set_enrolledList (x : list li) (p : page) : page :=
  mkPage (studentName p) x (availableList p) (finishedList p) (statusMessage p)
    (statusClasses p) (location p) (timers p) (console p) (requests p).
Definition set_availableList (x : list li) (p : page) : page :=
  mkPage (studentName p) (enrolledList p) x (finishedList p) (statusMessage p)
    (statusClasses p) (location p) (timers p) (console p) (requests p).
Definition set_finishedList (x : list li) (p : page) : page :=
  mkPage (studentName p) (enrolledList p) (availableList p) x (statusMessage p)
    (statusClasses p) (location p) (timers p) (console p) (requests p).
Definition set_statusMessage (x : string) (p : page) : page :=
  mkPage (studentName p) (enrolledList p) (availableList p) (finishedList p) x
    (statusClasses p) (location p) (timers p) (console p) (requests p).
Definition set_statusClasses (x : list string) (p : page) : page :=
  mkPage (studentName p) (enrolledList p) (availableList p) (finishedList p)
    (statusMessage p) x (location p) (timers p) (console p) (requests p).
Definition set_location (x : string) (p : page) : page :=
  mkPage (studentName p) (enrolledList p) (availableList p) (finishedList p)
    (statusMessage p) (statusClasses p) x (timers p) (console p) (requests p).
Definition set_timers (x : list timer) (p : page) : page :=
  mkPage (studentName p) (enrolledList p) (availableList p) (finishedList p)
    (statusMessage p) (statusClasses p) (location p) x (console p) (requests p).
Definition set_console (x : list (level * string)) (p : page) : page :=
  mkPage (studentName p) (enrolledList p) (availableList p) (finishedList p)
    (statusMessage p) (statusClasses p) (location p) (timers p) x (requests p).
Definition set_requests (x : list request) (p : page) : page :=
  mkPage (studentName p) (enrolledList p) (availableList p) (finishedList p)
    (statusMessage p) (statusClasses p) (location p) (timers p) (console p) x.

(** The three list elements a [targetElement] can be. *)
Inductive target_list : Type := EnrolledList | AvailableList | FinishedList.

Definition children (t : target_list) (p : page) : list li :=
  match t with
  | EnrolledList => enrolledList p
  | AvailableList => availableList p
  | FinishedList => finishedList p
  end.

Definition set_children (t : target_list) (x : list li) (p : page) : page :=
  match t with
  | EnrolledList => set_enrolledList x p
  | AvailableList => set_availableList x p
  | FinishedList => set_finishedList x p
  end.

Definition JSM := M page.

Definition console_log (msg : string) : JSM unit :=
  modify (fun p => set_console (console p ++ [(LogLevel, msg)]) p).
Definition console_warn (msg : string) : JSM unit :=
  modify (fun p => set_console (console p ++ [(WarnLevel, msg)]) p).
Definition console_error (msg : string) : JSM unit :=
  modify (fun p => set_console (console p ++ [(ErrorLevel, msg)]) p).

Definition setTimeout (cb : callback) (ms : Z) : JSM unit :=
  modify (fun p => set_timers (timers p ++ [mkTimer cb ms]) p).

(** *** StatusChannel (lines 11-40) *)

Definition setStatusMessage (message type : value) : JSM unit :=
  modify (set_statusMessage (text_of message)) ;;
  if is_str type "success" then
    modify (fun p => set_statusClasses (class_remove "error-message" (statusClasses p)) p) ;;
    modify (fun p => set_statusClasses (class_add "success-message" (statusClasses p)) p)
  else if is_str type "error" then
    modify (fun p => set_statusClasses (class_remove "success-message" (statusClasses p)) p) ;;
    modify (fun p => set_statusClasses (class_add "error-message" (statusClasses p)) p)
  else
    modify (fun p => set_statusClasses
                       (class_remove "error-message"
                          (class_remove "success-message" (statusClasses p))) p).

(** The test of lines 29-34 on the text of the status element. *)
Definition is_action_message (currentText : string) : bool :=
  startsWith currentText "Marking" ||
  includes currentText "finished!" ||
  startsWith currentText "Disenroll" ||
  startsWith currentText "Successfully disenrolled!" ||
  startsWith currentText "Enrollment" ||
  startsWith currentText "Successfully enrolled!".

Definition clearStatusMessageAfterDelay (delay : Z) : JSM unit :=
  currentText <- gets statusMessage ;;
  if is_action_message currentText then setTimeout ClearStatus delay
  else ret tt.

(** The body of a timer callback, run when the timer fires. *)
Definition run_callback (cb : callback) (p : page) : page :=
  match cb with
  | ClearStatus =>
      set_statusClasses
        (class_remove "error-message"
           (class_remove "success-message" (statusClasses p)))
        (set_statusMessage EmptyString p)
  | GoToLogin => set_location "/login.html" p
  end.

(** *** Markup (the double quote is built from its code) *)

Definition dquote : string := String (ascii_of_nat 34) EmptyString.
Definition quoted (s : string) : string := dquote ++ s ++ dquote.
Definition newline : string := String (ascii_of_nat 10) EmptyString.

Fixpoint spaces (n : nat) : string :=
  match n with
  | O => EmptyString
  | S n' => String " " (spaces n')
  end.

(** A line break of a template literal and the indentation after it. *)
Definition indent (n : nat) : string := newline ++ spaces n.

Definition button (class id label : string) : string :=
  "<button class=" ++ quoted class ++ " data-course-id=" ++ quoted id ++ ">"
    ++ label ++ "</button>".

Definition badge : string :=
  "<span class=" ++ quoted "status-badge" ++ ">Completed</span>".

(** *** CourseListView (lines 43-79) *)

Definition appendChild (t : target_list) (item : li) : JSM unit :=
  modify (fun p => set_children t (children t p ++ [item]) p).

(** Lines 57-68. *)
Definition buttonsHtml (course courseStatusType : value) : JSM string :=
  if is_str courseStatusType "available" then
    id <- read course "course_id" ;;
    ret (button "enroll-button" (to_string id) "Enroll")
  else if is_str courseStatusType "enrolled" then
    id <- read course "course_id" ;;
    ret (indent 20 ++ button "mark-finished-button" (to_string id) "Mark as Finished"
         ++ indent 20 ++ button "disenroll-button" (to_string id) "Disenroll"
         ++ indent 16)
  else if is_str courseStatusType "finished" then
    ret badge
  else
    ret EmptyString.

(** The template of lines 70-76. *)
Definition row_markup (name description buttons : string) : string :=
  indent 16 ++ "<h3>" ++ name ++ "</h3> "
  ++ indent 16 ++ "<p>" ++ description ++ "</p>"
  ++ indent 16 ++ "<div class=" ++ quoted "course-actions" ++ ">"
  ++ indent 20 ++ buttons
  ++ indent 16 ++ "</div>"
  ++ indent 12.

(** The callback of [courses.forEach] (lines 55-78). *)
Definition render_course (targetElement : target_list) (courseStatusType : value)
    (course : value) : JSM unit :=
  buttons <- buttonsHtml course courseStatusType ;;
  name <- read course "name" ;;
  description <- read course "description" ;;
  appendChild targetElement
    (Li (row_markup (to_string (or_else name (VStr "Unnamed Course")))
           (to_string (or_else description (VStr "No description available.")))
           buttons)).

(** Lines 47-50. *)
Definition placeholder (courseStatusType : value) : string :=
  if is_str courseStatusType "enrolled" then "No courses currently enrolled."
  else if is_str courseStatusType "available" then "No courses available for enrollment."
  else if is_str courseStatusType "finished" then "No courses finished yet."
  else "No courses found.".

Definition renderCourses (courses : value) (targetElement : target_list)
    (courseStatusType : value) : JSM unit :=
  modify (set_children targetElement []) ;;
  empty <- (if negb (truthy courses) then ret true
            else len <- read courses "length" ;; ret (is_zero len)) ;;
  if (empty : bool) then
    modify (set_children targetElement [Li (placeholder courseStatusType)])
  else
    match courses with
    | VArr items => forEach items (render_course targetElement courseStatusType)
    | _ => throw TypeError        (* courses.forEach is not a function *)
    end.

(** The markup [buttonsHtml] holds once [course.course_id] was read. *)
Definition actions_markup (courseStatusType id : value) : string :=
  if is_str courseStatusType "available" then
    button "enroll-button" (to_string id) "Enroll"
  else if is_str courseStatusType "enrolled" then
    indent 20 ++ button "mark-finished-button" (to_string id) "Mark as Finished"
    ++ indent 20 ++ button "disenroll-button" (to_string id) "Disenroll"
    ++ indent 16
  else if is_str courseStatusType "finished" then badge
  else EmptyString.

Definition display_name (course : value) : string :=
  to_string (or_else (opt_prop course "name") (VStr "Unnamed Course")).

Definition display_description (course : value) : string :=
  to_string (or_else (opt_prop course "description") (VStr "No description available.")).

(** The row one course is rendered as; [None] when the course is [null]
    or [undefined] and the callback throws. *)
Definition course_row (courseStatusType course : value) : option li :=
  if nullish course then None
  else Some (Li (row_markup (display_name course) (display_description course)
                   (actions_markup courseStatusType (opt_prop course "course_id")))).

(** The rows [forEach] appends before it ends or throws. *)
Fixpoint rendered (courseStatusType : value) (items : list value) : res unit * list li :=
  match items with
  | [] => (Val tt, [])
  | course :: rest =>
      match course_row courseStatusType course with
      | None => (Exn TypeError, [])
      | Some row =>
          (fst (rendered courseStatusType rest), row :: snd (rendered courseStatusType rest))
      end
  end.


(** *** DashboardSession (lines 81-241) *)

Section WithNetwork.

(** The answer to the n-th request the page issues. *)
Variable env : nat -> fetch_outcome.

Definition fetch (req : request) : JSM response :=
  fun p =>
    let p' := set_requests (requests p ++ [req]) p in
    match env (List.length (requests p)) with
    | Rejected => (Exn NetworkFailure, p')
    | Responded r => (Val r, p')
    end.

Definition fetchDashboardData : JSM unit :=
  try_catch
    (response <- fetch (mkRequest "GET" "/api/dashboard" None) ;;
     if ok response then
       data <- response_json response ;;
       student <- read data "student" ;;
       (if truthy student then
          name <- read student "name" ;;
          if truthy name then modify (set_studentName (text_of name))
          else modify (set_studentName "User")
        else modify (set_studentName "User")) ;;
       enrolled <- read data "enrolled" ;;
       renderCourses (or_else enrolled (VArr [])) EnrolledList (VStr "enrolled") ;;
       available <- read data "available" ;;
       renderCourses (or_else available (VArr [])) AvailableList (VStr "available") ;;
       finished <- read data "finished" ;;
       renderCourses (or_else finished (VArr [])) FinishedList (VStr "finished")
     else if (status response =? 401) || (status response =? 403) then
       console_log "Unauthorized access, redirecting to login." ;;
       setStatusMessage (VStr "Session expired or unauthorized. Redirecting to login...")
         (VStr "error") ;;
       setTimeout GoToLogin 2000
     else
       console_error "Failed to fetch dashboard data:" ;;
       setStatusMessage
         (VStr ("Error loading dashboard: "
                ++ to_string (or_else (VStr (statusText response)) (VStr "Unknown error"))))
         (VStr "error") ;;
       modify (set_enrolledList [Li "Could not load enrolled courses."]) ;;
       modify (set_availableList [Li "Could not load available courses."]) ;;
       modify (set_finishedList [Li "Could not load finished courses."]))
    (fun _ =>
       console_error "Error during fetchDashboardData:" ;;
       setStatusMessage (VStr "Could not connect to server to load dashboard.") (VStr "error") ;;
       modify (set_enrolledList [Li "Error loading enrolled courses."]) ;;
       modify (set_availableList [Li "Error loading available courses."]) ;;
       modify (set_finishedList [Li "Error loading finished courses."])).

Definition course_request (endpoint courseId : string) : request :=
  mkRequest "POST" endpoint (Some (VObj [("courseId", VStr courseId)])).

Definition status_suffix (r : response) : string :=
  " (Status: " ++ number_to_string (status r) ++ ")".

Definition enrollInCourse (courseId : string) : JSM unit :=
  setStatusMessage (VStr "Enrolling...") (VStr "info") ;;
  try_catch
    (response <- fetch (course_request "/api/enroll" courseId) ;;
     let responseData := response_json_or_null response in
     if ok response then
       message <- read responseData "message" ;;
       setStatusMessage (or_else message (VStr "Successfully enrolled!")) (VStr "success") ;;
       fetchDashboardData
     else
       setStatusMessage
         (or_else (opt_prop responseData "message")
            (VStr ("Enrollment failed" ++ status_suffix response)))
         (VStr "error") ;;
       console_error "Enrollment failed:")
    (fun _ =>
       console_error "Error during enrollInCourse:" ;;
       setStatusMessage (VStr "An error occurred during enrollment.") (VStr "error")) ;;
  clearStatusMessageAfterDelay 3000.

Definition disenrollFromCourse (courseId : string) : JSM unit :=
  setStatusMessage (VStr "Disenrolling...") (VStr "info") ;;
  try_catch
    (response <- fetch (course_request "/api/disenroll" courseId) ;;
     let responseData := response_json_or_null response in
     if ok response then
       message <- read responseData "message" ;;
       setStatusMessage (or_else message (VStr "Successfully disenrolled!")) (VStr "success") ;;
       fetchDashboardData
     else
       setStatusMessage
         (or_else (opt_prop responseData "message")
            (VStr ("Disenrollment failed" ++ status_suffix response)))
         (VStr "error") ;;
       console_error "Disenrollment failed:")
    (fun _ =>
       console_error "Error during disenrollFromCourse:" ;;
       setStatusMessage (VStr "An error occurred during disenrollment.") (VStr "error")) ;;
  clearStatusMessageAfterDelay 3000.

Definition markCourseAsFinished (courseId : string) : JSM unit :=
  setStatusMessage (VStr "Marking as finished...") (VStr "info") ;;
  try_catch
    (response <- fetch (course_request "/api/course/finish" courseId) ;;
     let responseData := response_json_or_null response in
     if ok response then
       message <- read responseData "message" ;;
       setStatusMessage (or_else message (VStr "Course marked as finished!")) (VStr "success") ;;
       fetchDashboardData
     else
       setStatusMessage
         (or_else (opt_prop responseData "message")
            (VStr ("Failed to mark as finished" ++ status_suffix response)))
         (VStr "error") ;;
       console_error "Mark as finished failed:")
    (fun _ =>
       console_error "Error during markCourseAsFinished:" ;;
       setStatusMessage (VStr "An error occurred while marking the course as finished.")
         (VStr "error")) ;;
  clearStatusMessageAfterDelay 3000.

(** *** Event listeners (lines 190-241) *)

(** [event.target]: its class list and [dataset.courseId]
    ([None] when the element has no data-course-id attribute). *)
Record click_target : Type := mkTarget {
  classList : list string;
  dataset_courseId : option string
}.

(** [if (courseId)] on a dataset entry. *)
Definition courseId_given (t : click_target) : option string :=
  match dataset_courseId t with
  | Some id => if (id =? EmptyString)%string then None else Some id
  | None => None
  end.

(** Lines 192-202. *)
Definition availableList_click (t : click_target) : JSM unit :=
  if class_contains "enroll-button" (classList t) then
    match courseId_given t with
    | Some courseId => enrollInCourse courseId
    | None =>
        console_error "Enroll button clicked but course ID not found." ;;
        setStatusMessage (VStr "Error: Could not identify course to enroll.") (VStr "error")
    end
  else ret tt.

(** Lines 208-220. *)
Definition enrolledList_click (t : click_target) : JSM unit :=
  match courseId_given t with
  | None => ret tt
  | Some courseId =>
      if class_contains "disenroll-button" (classList t) then
        disenrollFromCourse courseId
      else if class_contains "mark-finished-button" (classList t) then
        markCourseAsFinished courseId
      else ret tt
  end.

(** Lines 226-236. *)
Definition logout_click : JSM unit :=
  setStatusMessage (VStr "Logging out...") (VStr "info") ;;
  try_catch
    (_ <- fetch (mkRequest "POST" "/api/logout" None) ;; ret tt)
    (fun _ => console_warn "Logout request failed:") ;;
  modify (set_location "/login.html").

(** What the page reacts to. *)
Inductive event : Type :=
| Loaded                          (* DOMContentLoaded: line 241 *)
| ClickAvailable (t : click_target)
| ClickEnrolled (t : click_target)
| ClickLogout
| TimerFires (n : nat).           (* the n-th pending timer comes due *)

Fixpoint remove_nth {A} (n : nat) (l : list A) : list A :=
  match n, l with
  | _, [] => []
  | O, _ :: rest => rest
  | S n', x :: rest => x :: remove_nth n' rest
  end.

Definition handle (ev : event) (p : page) : page :=
  match ev with
  | Loaded => snd (fetchDashboardData p)
  | ClickAvailable t => snd (availableList_click t p)
  | ClickEnrolled t => snd (enrolledList_click t p)
  | ClickLogout => snd (logout_click p)
  | TimerFires n =>
      match nth_error (timers p) n with
      | Some t => run_callback (action t) (set_timers (remove_nth n (timers p)) p)
      | None => p
      end
  end.

Definition run (evs : list event) (p : page) : page :=
  fold_left (fun q ev => handle ev q) evs p.

End WithNetwork.

End Dashboard.

(** ** The signup page (src/front/signup.js) *)

Module Signup.

Record page : Type := mkPage {
  messageText : string;            (* #message-area textContent *)
  messageClasses : list string;    (* #message-area className, as tokens *)
  location : string;
  redirects : list Z;              (* pending timers to /login.html, by delay *)
  console : list (level * string);
  requests : list request
}.

Definition set_messageText (x : string) (p : page) : page :=
  mkPage x (messageClasses p) (location p) (redirects p) (console p) (requests p).
Definition set_messageClasses (x : list string) (p : page) : page :=
  mkPage (messageText p) x (location p) (redirects p) (console p) (requests p).
Definition set_location (x : string) (p : page) : page :=
  mkPage (messageText p) (messageClasses p) x (redirects p) (console p) (requests p).
Definition set_redirects (x : list Z) (p : page) : page :=
  mkPage (messageText p) (messageClasses p) (location p) x (console p) (requests p).
Definition set_console (x : list (level * string)) (p : page) : page :=
  mkPage (messageText p) (messageClasses p) (location p) (redirects p) x (requests p).
Definition set_requests (x : list request) (p : page) : page :=
  mkPage (messageText p) (messageClasses p) (location p) (redirects p) (console p) x.

Definition JSM := M page.

(** The white space [String.prototype.trim] strips, among the code units
    below 256: tab, line feed, vertical tab, form feed, carriage return,
    space and no-break space. *)
Definition is_space (c : ascii) : bool :=
  let n := nat_of_ascii c in
  ((9 <=? n) && (n <=? 13) || (n =? 32) || (n =? 160))%nat.

Fixpoint trimStart (s : string) : string :=
  match s with
  | EmptyString => EmptyString
  | String c s' => if is_space c then trimStart s' else s
  end.

Fixpoint trimEnd (s : string) : string :=
  match s with
  | EmptyString => EmptyString
  | String c s' =>
      let r := trimEnd s' in
      if is_space c && (r =? EmptyString)%string then EmptyString else String c r
  end.

Definition trim (s : string) : string := trimEnd (trimStart s).

(** [!s] on a string *)
Definition blank (s : string) : bool := (s =? EmptyString)%string.

Definition show_message (text : string) (class : string) : JSM unit :=
  modify (set_messageText text) ;;
  modify (fun p => set_messageClasses (class_add class (messageClasses p)) p).

Definition console_log (msg : string) : JSM unit :=
  modify (fun p => set_console (console p ++ [(LogLevel, msg)]) p).
Definition console_error (msg : string) : JSM unit :=
  modify (fun p => set_console (console p ++ [(ErrorLevel, msg)]) p).

Definition signup_request (name email password : string) : request :=
  mkRequest "POST" "/api/signup"
    (Some (VObj [("name", VStr name); ("email", VStr email); ("password", VStr password)])).

Section WithNetwork.

Variable env : nat -> fetch_outcome.

Definition fetch (req : request) : JSM response :=
  fun p =>
    let p' := set_requests (requests p ++ [req]) p in
    match env (List.length (requests p)) with
    | Rejected => (Exn NetworkFailure, p')
    | Responded r => (Val r, p')
    end.

(** The submit listener (lines 11-74), on the values of the four inputs. *)
Definition submit (nameValue emailValue passwordValue confirmValue : string) : JSM unit :=
  let name := trim nameValue in
  let email := trim emailValue in
  let password := passwordValue in
  let confirmPassword := confirmValue in
  modify (set_messageText EmptyString) ;;
  modify (set_messageClasses ["message-area"]) ;;
  if blank name || blank email || blank password || blank confirmPassword then
    show_message "Please fill in all fields." "error-message"
  else if negb (password =? confirmPassword)%string then
    show_message "Passwords do not match." "error-message"
  else if (String.length password <? 6)%nat then
    show_message "Password must be at least 6 characters long." "error-message"
  else
    try_catch
      (response <- fetch (signup_request name email password) ;;
       responseData <- response_json response ;;
       if ok response then
         message <- read responseData "message" ;;
         show_message
           (text_of (or_else message (VStr "Signup successful! Redirecting to login...")))
           "success-message" ;;
         console_log "Signup successful:" ;;
         modify (fun p => set_redirects (redirects p ++ [2000]) p)
       else
         message <- read responseData "message" ;;
         show_message
           (text_of (or_else message
                       (VStr ("Signup failed (Status: " ++ number_to_string (status response)
                              ++ ")"))))
           "error-message" ;;
         console_error "Signup failed:")
      (fun _ =>
         console_error "Signup request failed:" ;;
         show_message "An error occurred during signup. Please try again later."
           "error-message").

End WithNetwork.

End Signup.

(** ** The login page (src/front/login.js) *)

Module Login.

Record page : Type := mkPage {
  errorText : string;              (* #error-message textContent *)
  location : string;
  console : list (level * string);
  requests : list request
}.

Definition set_errorText (x : string) (p : page) : page :=
  mkPage x (location p) (console p) (requests p).
Definition set_location (x : string) (p : page) : page :=
  mkPage (errorText p) x (console p) (requests p).
Definition set_console (x : list (level * string)) (p : page) : page :=
  mkPage (errorText p) (location p) x (requests p).
Definition set_requests (x : list request) (p : page) : page :=
  mkPage (errorText p) (location p) (console p) x.

Definition JSM := M page.

(** [!s] on a string *)
Definition blank (s : string) : bool := (s =? EmptyString)%string.

Definition console_log (msg : string) : JSM unit :=
  modify (fun p => set_console (console p ++ [(LogLevel, msg)]) p).
Definition console_error (msg : string) : JSM unit :=
  modify (fun p => set_console (console p ++ [(ErrorLevel, msg)]) p).

Definition login_request (email password : string) : request :=
  mkRequest "POST" "/api/login"
    (Some (VObj [("email", VStr email); ("password", VStr password)])).

Section WithNetwork.

Variable env : nat -> fetch_outcome.

Definition fetch (req : request) : JSM response :=
  fun p =>
    let p' := set_requests (requests p ++ [req]) p in
    match env (List.length (requests p)) with
    | Rejected => (Exn NetworkFailure, p')
    | Responded r => (Val r, p')
    end.

(** The submit listener (lines 10-51), on the values of the two inputs. *)
Definition submit (emailValue passwordValue : string) : JSM unit :=
  let email := emailValue in
  let password := passwordValue in
  modify (set_errorText EmptyString) ;;
  if blank email || blank password then
    modify (set_errorText "Please enter both email and password.")
  else
    try_catch
      (response <- fetch (login_request email password) ;;
       if ok response then
         console_log "Login successful" ;;
         modify (set_location "/home.html")
       else
         let errorData := response_json_or_null response in
         let message :=
           or_else (opt_prop errorData "message")
             (VStr ("Login failed (Status: " ++ number_to_string (status response) ++ ")")) in
         modify (set_errorText (text_of message)) ;;
         console_error "Login failed:")
      (fun _ =>
         console_error "Login request failed:" ;;
         modify (set_errorText "An error occurred during login. Please try again later.")).

End WithNetwork.

End Login.

(** ** The dashboard fetch of the previous revision
    (src/unnamed/part_001, lines 291-321; its [renderCourses], lines
    253-289, is the one above) *)

Module Previous.

Import Dashboard.

Section WithNetwork.

Variable env : nat -> fetch_outcome.

Definition fetchDashboardData : JSM unit :=
  try_catch
    (response <- fetch env (mkRequest "GET" "/api/dashboard" None) ;;
     if ok response then
       data <- response_json response ;;
       student <- read data "student" ;;
       (if truthy student then
          name <- read student "name" ;;
          if truthy name then modify (set_studentName (text_of name))
          else modify (set_studentName "User")
        else modify (set_studentName "User")) ;;
       enrolled <- read data "enrolled" ;;
       renderCourses (or_else enrolled (VArr [])) EnrolledList (VBool false) ;;
       available <- read data "available" ;;
       renderCourses (or_else available (VArr [])) AvailableList (VBool true) ;;
       finished <- read data "finished" ;;
       renderCourses (or_else finished (VArr [])) FinishedList (VStr "finished")
     else if (status response =? 401) || (status response =? 403) then
       console_log "Unauthorized access, redirecting to login." ;;
       modify (set_location "/login.html")
     else
       console_error "Failed to fetch dashboard data:" ;;
       modify (set_statusMessage ("Error loading dashboard: " ++ statusText response)) ;;
       modify (set_enrolledList [Li "Could not load enrolled courses."]) ;;
       modify (set_availableList [Li "Could not load available courses."]))
    (fun _ =>
       console_error "Error during fetchDashboardData:" ;;
       modify (set_statusMessage "Could not connect to server to load dashboard.") ;;
       modify (set_enrolledList [Li "Error loading enrolled courses."]) ;;
       modify (set_availableList [Li "Error loading available courses."])).

End WithNetwork.

End Previous.

(** * Vocabulary of the properties *)

Import Dashboard.

(** A run of calls of [setStatusMessage], oldest first. *)
Definition set_all (calls : list (value * value)) (p : page) : page :=
  fold_left (fun q c => snd (setStatusMessage (fst c) (snd c) q)) calls p.

(** What [renderCourses] leaves in the target and whether it throws, as a
    function of its two data arguments alone. *)
Definition render_outcome (courses courseStatusType : value) : res unit * list li :=
  if negb (truthy courses) || is_zero (opt_prop courses "length")
  then (Val tt, [Li (placeholder courseStatusType)])
  else match courses with
       | VArr items => rendered courseStatusType items
       | _ => (Exn TypeError, [])
       end.



(** The row a course that is an object (or any value but [null] and
    [undefined]) is shown as. *)
Definition shown_row (courseStatusType course : value) : li :=
  Li (row_markup (display_name course) (display_description course)
        (actions_markup courseStatusType (opt_prop course "course_id"))).

(** A page before anything was loaded into it. *)
Definition initial_page : page :=
  mkPage EmptyString [] [] [] EmptyString ["message-area"] "/home.html" [] [] [].

(** A network that gives the listed answers, in order, and then fails. *)
Definition answers (l : list fetch_outcome) : nat -> fetch_outcome :=
  fun n => nth n l Rejected.

(** The three actions on a course. *)
Inductive mutation : Type := Enroll | Disenroll | MarkFinished.

Definition perform (env : nat -> fetch_outcome) (m : mutation) (courseId : string)
  : JSM unit :=
  match m with
  | Enroll => enrollInCourse env courseId
  | Disenroll => disenrollFromCourse env courseId
  | MarkFinished => markCourseAsFinished env courseId
  end.

Definition endpoint (m : mutation) : string :=
  match m with
  | Enroll => "/api/enroll"
  | Disenroll => "/api/disenroll"
  | MarkFinished => "/api/course/finish"
  end.

(** The fixed texts of each action, as its function spells them. *)
Definition success_default (m : mutation) : string :=
  match m with
  | Enroll => "Successfully enrolled!"
  | Disenroll => "Successfully disenrolled!"
  | MarkFinished => "Course marked as finished!"
  end.

Definition failure_default (m : mutation) : string :=
  match m with
  | Enroll => "Enrollment failed"
  | Disenroll => "Disenrollment failed"
  | MarkFinished => "Failed to mark as finished"
  end.

Definition network_error_text (m : mutation) : string :=
  match m with
  | Enroll => "An error occurred during enrollment."
  | Disenroll => "An error occurred during disenrollment."
  | MarkFinished => "An error occurred while marking the course as finished."
  end.

(** A request that failed: it never completed, or its answer is not 2xx. *)
Definition failed (o : fetch_outcome) : bool :=
  match o with
  | Rejected => true
  | Responded r => negb (ok r)
  end.




(** What C4 words for a click on an action element without a course id:
    an error is logged, the status reports that the course could not be
    identified, and no request is issued. *)
Definition reports_missing_course (p p' : page) : Prop :=
  (exists entry : string, console p' = (console p ++ [(ErrorLevel, entry)])%list)
  /\ includes (statusMessage p') "Could not identify course" = true
  /\ requests p' = requests p.

(** The outcome of the signup validation as the specification words it,
    on the name and email the handler keeps and the two passwords: the
    message that blocks the submission, or [None] when every check
    passes. The checks are tried in order. *)
Inductive spec_verdict (name email password confirmPassword : string)
  : option string -> Prop :=
| verdict_empty :
    name = EmptyString \/ email = EmptyString
    \/ password = EmptyString \/ confirmPassword = EmptyString ->
    spec_verdict name email password confirmPassword
      (Some "Please fill in all fields.")
| verdict_mismatch :
    name <> EmptyString -> email <> EmptyString ->
    password <> EmptyString -> confirmPassword <> EmptyString ->
    password <> confirmPassword ->
    spec_verdict name email password confirmPassword
      (Some "Passwords do not match.")
| verdict_short :
    name <> EmptyString -> email <> EmptyString ->
    password <> EmptyString -> confirmPassword <> EmptyString ->
    password = confirmPassword ->
    (String.length password < 6)%nat ->
    spec_verdict name email password confirmPassword
      (Some "Password must be at least 6 characters long.")
| verdict_pass :
    name <> EmptyString -> email <> EmptyString ->
    password <> EmptyString -> confirmPassword <> EmptyString ->
    password = confirmPassword ->
    (6 <= String.length password)%nat ->
    spec_verdict name email password confirmPassword None.

(** A computation that issues no request. *)
Definition keeps_requests {A} (m : JSM A) : Prop :=
  forall p : page, requests (snd (m p)) = requests p.




(** The three lists after the catch block of [fetchDashboardData]. *)
Definition error_rows (p : page) : page :=
  set_finishedList [Li "Error loading finished courses."]
    (set_availableList [Li "Error loading available courses."]
       (set_enrolledList [Li "Error loading enrolled courses."] p)).

(** The status element never carries both kind classes. *)
Definition kinds_exclusive (p : page) : Prop :=
  class_contains "success-message" (statusClasses p)
  && class_contains "error-message" (statusClasses p) = false.

(** A property of the page that no write to the student name, the lists,
    the timers, the console or the request log can change, and that
    [setStatusMessage] keeps. *)
Record stable (P : page -> Prop) : Prop := mkStable {
  stable_studentName : forall x p, P p -> P (set_studentName x p);
  stable_children : forall t x p, P p -> P (set_children t x p);
  stable_timers : forall x p, P p -> P (set_timers x p);
  stable_console : forall x p, P p -> P (set_console x p);
  stable_requests : forall x p, P p -> P (set_requests x p);
  stable_status : forall message type p, P p -> P (snd (setStatusMessage message type p))
}.

(** A computation that keeps a property of the page. *)
Definition preserves {A} (P : page -> Prop) (m : JSM A) : Prop :=
  forall p : page, P p -> P (snd (m p)).

(** A handler that ends without throwing. *)
Definition returns {A} (m : JSM A) : Prop :=
  forall p : page, exists a : A, fst (m p) = Val a.



(** An answer to the dashboard request that the try block cannot read:
    the request failed, or a 2xx answer has a body that is not JSON or
    that parses to [null]. *)
Definition unreadable (o : fetch_outcome) : bool :=
  match o with
  | Rejected => true
  | Responded r =>
      ok r && match json_body r with
              | Some data => nullish data
              | None => true
              end
  end.

(** Reading a field of a page built by the setters. *)
Ltac page_simpl :=
  cbn [fst snd studentName enrolledList availableList finishedList statusMessage
       statusClasses location timers console requests
       set_studentName set_enrolledList set_availableList set_finishedList
       set_statusMessage set_statusClasses set_location set_timers set_console
       set_requests set_children children error_rows].

Tactic Notation "page_simpl" "in" hyp(H) :=
  cbn [fst snd studentName enrolledList availableList finishedList statusMessage
       statusClasses location timers console requests
       set_studentName set_enrolledList set_availableList set_finishedList
       set_statusMessage set_statusClasses set_location set_timers set_console
       set_requests set_children children error_rows] in H.

(** More fixed texts of each action. *)
Definition in_progress_text (m : mutation) : string :=
  match m with
  | Enroll => "Enrolling..."
  | Disenroll => "Disenrolling..."
  | MarkFinished => "Marking as finished..."
  end.

Definition catch_label (m : mutation) : string :=
  match m with
  | Enroll => "Error during enrollInCourse:"
  | Disenroll => "Error during disenrollFromCourse:"
  | MarkFinished => "Error during markCourseAsFinished:"
  end.

Definition failure_label (m : mutation) : string :=
  match m with
  | Enroll => "Enrollment failed:"
  | Disenroll => "Disenrollment failed:"
  | MarkFinished => "Mark as finished failed:"
  end.

(** The page when the request of an action has been sent. *)
Definition sent (m : mutation) (courseId : string) (p : page) : page :=
  set_requests (requests p ++ [course_request (endpoint m) courseId])
    (snd (setStatusMessage (VStr (in_progress_text m)) (VStr "info") p)).

(** The page the catch block of an action leaves. *)
Definition caught (m : mutation) (q : page) : page :=
  snd (setStatusMessage (VStr (network_error_text m)) (VStr "error")
         (set_console (console q ++ [(ErrorLevel, catch_label m)]) q)).


(** * Properties *)

(** ** Class lists *)

Lemma class_contains_add_same (tok : string) (cl : list string) :
  class_contains tok (class_add tok cl) = true.
Proof.
  unfold class_contains, class_add.
  destruct (existsb _ cl) eqn:E; [exact E|].
  rewrite existsb_app, E. simpl. now rewrite String.eqb_refl.
Qed.

Lemma class_contains_remove_same (tok : string) (cl : list string) :
  class_contains tok (class_remove tok cl) = false.
Proof.
  unfold class_contains, class_remove.
  induction cl as [|c cl IH]; simpl; [reflexivity|].
  destruct (c =? tok)%string eqn:E; simpl; [exact IH|].
  now rewrite E.
Qed.

Lemma class_contains_add_other (a b : string) (cl : list string) :
  (b =? a)%string = false ->
  class_contains a (class_add b cl) = class_contains a cl.
Proof.
  intros Hab. unfold class_contains, class_add.
  destruct (existsb (fun c => (c =? b)%string) cl); [reflexivity|].
  rewrite existsb_app. simpl. rewrite Hab. now rewrite !orb_false_r.
Qed.

Lemma class_contains_remove_other (a b : string) (cl : list string) :
  (a =? b)%string = false ->
  class_contains a (class_remove b cl) = class_contains a cl.
Proof.
  intros Hab. unfold class_contains, class_remove.
  induction cl as [|c cl IH]; simpl; [reflexivity|].
  destruct (c =? b)%string eqn:E; simpl.
  - apply String.eqb_eq in E. subst c.
    rewrite String.eqb_sym, Hab. exact IH.
  - now rewrite IH.
Qed.

(** The status element after a call of [setStatusMessage]. *)
Lemma setStatusMessage_run (message type : value) (p : page) :
  setStatusMessage message type p =
  (Val tt,
   set_statusClasses
     (if is_str type "success"
      then class_add "success-message" (class_remove "error-message" (statusClasses p))
      else if is_str type "error"
      then class_add "error-message" (class_remove "success-message" (statusClasses p))
      else class_remove "error-message" (class_remove "success-message" (statusClasses p)))
     (set_statusMessage (text_of message) p)).
Proof.
  unfold setStatusMessage, bind, modify.
  destruct (is_str type "success"); [reflexivity|].
  destruct (is_str type "error"); reflexivity.
Qed.

(** C10. After a call of [setStatusMessage] the status element carries
    the class of the kind and not the other one: kind 'success' leaves
    'success-message' without 'error-message', kind 'error' leaves
    'error-message' without 'success-message', any other kind leaves
    neither; so whatever calls came before, from whatever class list, the
    two classes are never present together after a call. *)
Theorem setStatusMessage_one_kind_class :
  forall (message type : value) (p : page),
    let cl := statusClasses (snd (setStatusMessage message type p)) in
    (if is_str type "success"
     then class_contains "success-message" cl = true
          /\ class_contains "error-message" cl = false
     else if is_str type "error"
     then class_contains "error-message" cl = true
          /\ class_contains "success-message" cl = false
     else class_contains "success-message" cl = false
          /\ class_contains "error-message" cl = false)
    /\ (forall earlier : list (value * value),
          let cl' := statusClasses
                       (snd (setStatusMessage message type (set_all earlier p))) in
          class_contains "success-message" cl' && class_contains "error-message" cl' = false).
Proof.
  assert (One : forall message type q,
    let cl := statusClasses (snd (setStatusMessage message type q)) in
    if is_str type "success"
    then class_contains "success-message" cl = true
         /\ class_contains "error-message" cl = false
    else if is_str type "error"
    then class_contains "error-message" cl = true
         /\ class_contains "success-message" cl = false
    else class_contains "success-message" cl = false
         /\ class_contains "error-message" cl = false).
  { intros message type q. rewrite setStatusMessage_run.
    cbn [snd statusClasses set_statusClasses set_statusMessage].
    destruct (is_str type "success"); [|destruct (is_str type "error")].
    - split; [apply class_contains_add_same|].
      rewrite class_contains_add_other by reflexivity.
      apply class_contains_remove_same.
    - split; [apply class_contains_add_same|].
      rewrite class_contains_add_other by reflexivity.
      apply class_contains_remove_same.
    - split.
      + rewrite class_contains_remove_other by reflexivity.
        apply class_contains_remove_same.
      + apply class_contains_remove_same. }
  intros message type p cl. split; [apply One|].
  intros earlier cl'. subst cl'.
  pose proof (One message type (set_all earlier p)) as H. cbv zeta in H.
  destruct (is_str type "success"); [|destruct (is_str type "error")];
    destruct H as [H1 H2]; rewrite H1, H2; reflexivity.
Qed.

(** ** CourseListView *)

Lemma set_children_twice (t : target_list) (x y : list li) (p : page) :
  set_children t x (set_children t y p) = set_children t x p.
Proof. destruct t; reflexivity. Qed.

Lemma children_set (t : target_list) (x : list li) (p : page) :
  children t (set_children t x p) = x.
Proof. destruct t; reflexivity. Qed.

Lemma set_children_same (t : target_list) (p : page) :
  set_children t (children t p) p = p.
Proof. destruct t, p; reflexivity. Qed.

Lemma render_course_run (t : target_list) (ty course : value) (p : page) :
  render_course t ty course p =
  match course_row ty course with
  | Some row => (Val tt, set_children t (children t p ++ [row]) p)
  | None => (Exn TypeError, p)
  end.
Proof.
  unfold render_course, buttonsHtml, course_row, actions_markup,
    display_name, display_description, opt_prop, read, appendChild, bind.
  destruct course; cbn [nullish prop];
    destruct (is_str ty "available"), (is_str ty "enrolled"), (is_str ty "finished");
    reflexivity.
Qed.

Lemma forEach_render (t : target_list) (ty : value) (items : list value) :
  forall p : page,
    forEach items (render_course t ty) p =
    (fst (rendered ty items), set_children t (children t p ++ snd (rendered ty items)) p).
Proof.
  induction items as [|course rest IH]; intros p; cbn [forEach rendered].
  - cbn [fst snd ret]. unfold ret. now rewrite app_nil_r, set_children_same.
  - unfold bind. rewrite render_course_run.
    destruct (course_row ty course) as [row|]; cbn [fst snd].
    + rewrite IH, children_set, set_children_twice, <- app_assoc. reflexivity.
    + now rewrite app_nil_r, set_children_same.
Qed.

Lemma renderCourses_run (courses : value) (t : target_list) (ty : value) (p : page) :
  renderCourses courses t ty p =
  (fst (render_outcome courses ty), set_children t (snd (render_outcome courses ty)) p).
Proof.
  unfold renderCourses, render_outcome, bind, modify, read, opt_prop.
  destruct courses as [| |b|n|s|items|fields]; cbn [truthy negb orb prop ret];
    try (cbn; now rewrite set_children_twice).
  - destruct b; cbn; now rewrite ?set_children_twice.
  - destruct (n =? 0); cbn; now rewrite ?set_children_twice.
  - unfold ret. destruct (s =? EmptyString)%string; cbn [negb orb].
    + cbn. now rewrite set_children_twice.
    + destruct (is_zero _); cbn [fst snd]; unfold throw; now rewrite ?set_children_twice.
  - unfold ret. destruct (is_zero _); cbn [fst snd].
    + now rewrite set_children_twice.
    + rewrite forEach_render, children_set, set_children_twice. reflexivity.
  - unfold ret. destruct (is_zero _); cbn [fst snd]; unfold throw;
      now rewrite ?set_children_twice.
Qed.

(** C5. Rendering an absent or empty course list ([null], [undefined] or
    an array of length zero) replaces the target's content by exactly one
    placeholder row, whose text is 'No courses currently enrolled.' for
    the bucket 'enrolled', 'No courses available for enrollment.' for
    'available', 'No courses finished yet.' for 'finished', and
    'No courses found.' for every other bucket value. *)
Theorem renderCourses_placeholder :
  forall (t : target_list) (ty : value) (p : page),
    let shown := set_children t [Li (placeholder ty)] p in
    renderCourses VNull t ty p = (Val tt, shown)
    /\ renderCourses VUndefined t ty p = (Val tt, shown)
    /\ renderCourses (VArr []) t ty p = (Val tt, shown)
    /\ children t shown = [Li (placeholder ty)]
    /\ placeholder (VStr "enrolled") = "No courses currently enrolled."
    /\ placeholder (VStr "available") = "No courses available for enrollment."
    /\ placeholder (VStr "finished") = "No courses finished yet."
    /\ (if is_str ty "enrolled" || is_str ty "available" || is_str ty "finished"
        then True else placeholder ty = "No courses found.").
Proof.
  intros t ty p shown. subst shown.
  rewrite !renderCourses_run, children_set.
  repeat split.
  unfold placeholder.
  destruct (is_str ty "enrolled"), (is_str ty "available"), (is_str ty "finished");
    cbn; trivial.
Qed.

(** C7. [renderCourses] replaces the content of its target: its result
    and the page it leaves do not depend on what the target held before,
    and rendering the same input a second time changes nothing. *)
Theorem renderCourses_idempotent :
  forall (courses : value) (t : target_list) (ty : value) (p : page) (prior : list li),
    renderCourses courses t ty (set_children t prior p) = renderCourses courses t ty p
    /\ renderCourses courses t ty (snd (renderCourses courses t ty p))
       = renderCourses courses t ty p.
Proof.
  intros courses t ty p prior.
  rewrite !renderCourses_run. cbn [snd].
  now rewrite !set_children_twice.
Qed.

(** *** Markup of the actions *)









(** ** DashboardSession *)

Lemma clearStatusMessageAfterDelay_run (delay : Z) (p : page) :
  clearStatusMessageAfterDelay delay p =
  (Val tt,
   if is_action_message (statusMessage p)
   then set_timers (timers p ++ [mkTimer ClearStatus delay]) p
   else p).
Proof.
  unfold clearStatusMessageAfterDelay, bind, gets, setTimeout, modify, ret.
  destruct (is_action_message (statusMessage p)); reflexivity.
Qed.

Lemma nth_error_last {A} (l : list A) (x : A) :
  nth_error (l ++ [x]) (List.length l) = Some x.
Proof. induction l as [|y l IH]; [reflexivity|exact IH]. Qed.

Lemma remove_nth_last {A} (l : list A) (x : A) :
  remove_nth (List.length l) (l ++ [x]) = l.
Proof. induction l as [|y l IH]; [reflexivity|cbn; now rewrite IH]. Qed.

(** C9. When the dashboard request is answered with HTTP 401 or 403, the
    client sets the status 'Session expired or unauthorized. Redirecting
    to login...' as an error, renders nothing (the three lists and the
    student name stay as they were), does not navigate yet but arms one
    timer of 2000 ms whose firing sets the location to the login page,
    and issues no request besides the one dashboard fetch. *)
Theorem fetchDashboardData_unauthorized :
  forall (env : nat -> fetch_outcome) (p : page) (r : response),
    env (List.length (requests p)) = Responded r ->
    status r = 401 \/ status r = 403 ->
    let p' := snd (fetchDashboardData env p) in
    let fired := handle env (TimerFires (List.length (timers p))) p' in
    fst (fetchDashboardData env p) = Val tt
    /\ statusMessage p' = "Session expired or unauthorized. Redirecting to login..."
    /\ class_contains "error-message" (statusClasses p') = true
    /\ class_contains "success-message" (statusClasses p') = false
    /\ enrolledList p' = enrolledList p
    /\ availableList p' = availableList p
    /\ finishedList p' = finishedList p
    /\ studentName p' = studentName p
    /\ location p' = location p
    /\ timers p' = (timers p ++ [mkTimer GoToLogin 2000])%list
    /\ requests p' = (requests p ++ [mkRequest "GET" "/api/dashboard" None])%list
    /\ location fired = "/login.html"
    /\ timers fired = timers p
    /\ requests fired = requests p'.
Proof.
  intros env p r Henv Hst p' fired.
  assert (Hok : ok r = false) by (unfold ok; destruct Hst as [-> | ->]; reflexivity).
  assert (Hauth : (status r =? 401) || (status r =? 403) = true)
    by (destruct Hst as [-> | ->]; reflexivity).
  assert (Hrun : fetchDashboardData env p =
    (Val tt,
     set_timers (timers p ++ [mkTimer GoToLogin 2000])
       (snd (setStatusMessage
               (VStr "Session expired or unauthorized. Redirecting to login...")
               (VStr "error")
               (set_console
                  (console p ++ [(LogLevel, "Unauthorized access, redirecting to login.")])
                  (set_requests (requests p ++ [mkRequest "GET" "/api/dashboard" None]) p)))))).
  { unfold fetchDashboardData, try_catch, bind, fetch.
    rewrite Henv, Hok, Hauth. reflexivity. }
  subst fired p'. rewrite Hrun. cbn [fst snd].
  rewrite setStatusMessage_run.
  cbn [is_str String.eqb Ascii.eqb Bool.eqb snd
       statusMessage statusClasses enrolledList availableList finishedList studentName
       location timers requests console
       set_timers set_statusClasses set_statusMessage set_console set_requests].
  repeat split.
  - apply class_contains_add_same.
  - rewrite class_contains_add_other by reflexivity. apply class_contains_remove_same.
  - unfold handle. cbn [timers set_timers]. rewrite nth_error_last. reflexivity.
  - unfold handle. cbn [timers set_timers]. rewrite nth_error_last, remove_nth_last.
    reflexivity.
  - unfold handle. cbn [timers set_timers]. rewrite nth_error_last. reflexivity.
Qed.

Lemma fetchDashboardData_unauthorized_witness :
  let r := mkResponse 401 "UNAUTHORIZED" None "Unauthorized" in
  let p' := snd (fetchDashboardData (answers [Responded r]) initial_page) in
  (status r = 401 \/ status r = 403)
  /\ statusMessage p' = "Session expired or unauthorized. Redirecting to login..."
  /\ availableList p' = []
  /\ timers p' = [mkTimer GoToLogin 2000].
Proof.
  intros r p'.
  assert (Hst : status r = 401 \/ status r = 403) by (left; reflexivity).
  pose proof (fetchDashboardData_unauthorized (answers [Responded r]) initial_page r
                eq_refl Hst) as H.
  split; [exact Hst|].
  split; [exact (proj1 (proj2 H))|].
  split; [exact (proj1 (proj2 (proj2 (proj2 (proj2 (proj2 H))))))|].
  exact (proj1 (proj2 (proj2 (proj2 (proj2 (proj2 (proj2 (proj2 (proj2 (proj2 H)))))))))).
Defined.







(** C2, at an answer the code mishandles. A 2xx answer whose body is not
    JSON makes [responseData] null, the read of its message throws, and
    the action ends in its catch block: the status is the action's error
    text, and the dashboard is not fetched again. *)
Theorem ok_answer_without_json_body :
  forall (m : mutation) (courseId : string),
    let r := mkResponse 200 "OK" None EmptyString in
    let p' := snd (perform (answers [Responded r]) m courseId initial_page) in
    ok r = true
    /\ statusMessage p' = network_error_text m
    /\ class_contains "error-message" (statusClasses p') = true
    /\ class_contains "success-message" (statusClasses p') = false
    /\ requests p' = [course_request (endpoint m) courseId].
Proof. intros m courseId. destruct m; cbn; repeat split. Qed.

(** C1, on a run the code mishandles. The test for an action message is
    made when the timer is armed, and the callback clears the status
    whatever it shows by then: after an enrollment armed the timer, a
    second enrollment is refused with the server's message 'Already
    enrolled', which is no action message and arms no timer of its own,
    and the first timer clears it. *)
Theorem stale_timer_clears_newer_message :
  (forall (delay : Z) (p : page),
      timers (snd (clearStatusMessageAfterDelay delay p))
      = if is_action_message (statusMessage p)
        then (timers p ++ [mkTimer ClearStatus delay])%list
        else timers p)
  /\ (forall p : page, statusMessage (run_callback ClearStatus p) = EmptyString)
  /\ (let done := Responded (mkResponse 200 "OK" (Some (VObj [])) "{}") in
      let refused := Responded (mkResponse 409 "CONFLICT"
                                  (Some (VObj [("message", VStr "Already enrolled")]))
                                  EmptyString) in
      let env := answers [done; done; refused] in
      let p1 := handle env (ClickAvailable (mkTarget ["enroll-button"] (Some "7")))
                  initial_page in
      let p2 := handle env (ClickAvailable (mkTarget ["enroll-button"] (Some "8"))) p1 in
      let p3 := handle env (TimerFires 0) p2 in
      statusMessage p1 = "Successfully enrolled!"
      /\ timers p1 = [mkTimer ClearStatus 3000]
      /\ statusMessage p2 = "Already enrolled"
      /\ class_contains "error-message" (statusClasses p2) = true
      /\ is_action_message (statusMessage p2) = false
      /\ timers p2 = [mkTimer ClearStatus 3000]
      /\ statusMessage p3 = EmptyString
      /\ class_contains "error-message" (statusClasses p3) = false).
Proof.
  split; [|split].
  - intros delay p. rewrite clearStatusMessageAfterDelay_run. cbn [snd].
    destruct (is_action_message (statusMessage p)); reflexivity.
  - reflexivity.
  - vm_compute. repeat split.
Qed.

(** ** Click delegation *)

(** C4, as amended. A click on an Enroll button of the available list
    that carries no course id is logged as an error and reported in the
    status, and no request is issued; a click in the enrolled list on an
    element without a course id does nothing at all. *)
Theorem click_without_course_id :
  forall (env : nat -> fetch_outcome) (ta te : click_target) (p : page),
    class_contains "enroll-button" (classList ta) = true ->
    courseId_given ta = None ->
    courseId_given te = None ->
    let pa := snd (availableList_click env ta p) in
    reports_missing_course p pa
    /\ statusMessage pa = "Error: Could not identify course to enroll."
    /\ class_contains "error-message" (statusClasses pa) = true
    /\ enrolledList pa = enrolledList p
    /\ availableList pa = availableList p
    /\ finishedList pa = finishedList p
    /\ timers pa = timers p
    /\ enrolledList_click env te p = (Val tt, p).
Proof.
  intros env ta te p Hclass Hta Hte pa. subst pa.
  unfold availableList_click, enrolledList_click. rewrite Hclass, Hta, Hte.
  unfold bind, console_error, modify. rewrite setStatusMessage_run.
  cbn [is_str String.eqb Ascii.eqb Bool.eqb fst snd text_of nullish to_string
       statusMessage statusClasses enrolledList availableList finishedList
       timers requests console
       set_statusClasses set_statusMessage set_console].
  repeat split.
  - now exists "Enroll button clicked but course ID not found.".
  - apply class_contains_add_same.
Qed.

Lemma click_without_course_id_witness :
  let ta := mkTarget ["enroll-button"] None in
  let te := mkTarget ["disenroll-button"] None in
  class_contains "enroll-button" (classList ta) = true
  /\ courseId_given ta = None
  /\ courseId_given te = None
  /\ statusMessage (snd (availableList_click (answers []) ta initial_page))
     = "Error: Could not identify course to enroll."
  /\ enrolledList_click (answers []) te initial_page = (Val tt, initial_page).
Proof.
  intros ta te.
  pose proof (click_without_course_id (answers []) ta te initial_page
                eq_refl eq_refl eq_refl) as H.
  split; [reflexivity|]. split; [reflexivity|]. split; [reflexivity|].
  split; [exact (proj1 (proj2 H))|].
  exact (proj2 (proj2 (proj2 (proj2 (proj2 (proj2 (proj2 H))))))).
Defined.

(** C4 as stated fails in the enrolled list: a click on a Disenroll
    button without a course id logs nothing and sets no status. *)
Lemma enrolled_click_without_id_is_silent :
  ~ reports_missing_course initial_page
      (snd (enrolledList_click (answers [])
              (mkTarget ["disenroll-button"] None) initial_page)).
Proof. intros [[entry H] _]. cbn in H. discriminate H. Qed.

(** ** Signup *)

Lemma blank_true (s : string) : Signup.blank s = true <-> s = EmptyString.
Proof. unfold Signup.blank. apply String.eqb_eq. Qed.

Lemma blank_false (s : string) : Signup.blank s = false <-> s <> EmptyString.
Proof. unfold Signup.blank. apply String.eqb_neq. Qed.

(** Every submission gets a verdict. *)
Lemma spec_verdict_total (name email password confirmPassword : string) :
  exists verdict, spec_verdict name email password confirmPassword verdict.
Proof.
  destruct (string_dec name EmptyString) as [Hn|Hn];
    [eexists; apply verdict_empty; auto|].
  destruct (string_dec email EmptyString) as [He|He];
    [eexists; apply verdict_empty; auto|].
  destruct (string_dec password EmptyString) as [Hp|Hp];
    [eexists; apply verdict_empty; auto|].
  destruct (string_dec confirmPassword EmptyString) as [Hc|Hc];
    [eexists; apply verdict_empty; auto|].
  destruct (string_dec password confirmPassword) as [Heq|Hdiff];
    [|eexists; now apply verdict_mismatch].
  destruct (Nat.lt_ge_cases (String.length password) 6) as [Hlen|Hlen];
    eexists; [now apply verdict_short|now apply verdict_pass].
Qed.

(** C8. The signup handler validates in order, on the trimmed name and
    email and the two passwords as typed: an empty field blocks with
    'Please fill in all fields.', else differing passwords block with
    'Passwords do not match.', else a password of fewer than 6 characters
    blocks with 'Password must be at least 6 characters long.'; a blocked
    submission shows its message as an error and issues no request, and
    only a submission that passes every check issues the POST to
    /api/signup, once. *)
Theorem signup_validation :
  forall (env : nat -> fetch_outcome)
         (nameValue emailValue password confirmPassword : string)
         (verdict : option string) (p : Signup.page),
    spec_verdict (Signup.trim nameValue) (Signup.trim emailValue)
      password confirmPassword verdict ->
    let p' := snd (Signup.submit env nameValue emailValue password confirmPassword p) in
    match verdict with
    | Some message =>
        Signup.messageText p' = message
        /\ Signup.messageClasses p' = ["message-area"; "error-message"]
        /\ Signup.requests p' = Signup.requests p
        /\ Signup.redirects p' = Signup.redirects p
    | None =>
        Signup.requests p'
        = (Signup.requests p
           ++ [Signup.signup_request (Signup.trim nameValue) (Signup.trim emailValue)
                 password])%list
    end.
Proof.
  intros env nameValue emailValue password confirmPassword verdict p Hv p'.
  subst p'. unfold Signup.submit.
  destruct Hv as [Hempty | Hn He Hp Hc Hdiff | Hn He Hp Hc Heq Hlen | Hn He Hp Hc Heq Hlen].
  - assert (Signup.blank (Signup.trim nameValue) || Signup.blank (Signup.trim emailValue)
            || Signup.blank password || Signup.blank confirmPassword = true) as Hb.
    { destruct Hempty as [H | [H | [H | H]]]; apply blank_true in H; rewrite H;
        now rewrite ?orb_true_r. }
    unfold bind at 1, bind at 1. unfold modify at 1 2.
    rewrite Hb. repeat split.
  - apply blank_false in Hn, He, Hp, Hc. apply String.eqb_neq in Hdiff.
    unfold bind at 1, bind at 1. unfold modify at 1 2.
    rewrite Hn, He, Hp, Hc, Hdiff. repeat split.
  - apply blank_false in Hn, He, Hp, Hc. apply String.eqb_eq in Heq.
    apply Nat.ltb_lt in Hlen.
    unfold bind at 1, bind at 1. unfold modify at 1 2.
    rewrite Hn, He, Hp, Hc, Heq, Hlen. repeat split.
  - apply blank_false in Hn, He, Hp, Hc. apply String.eqb_eq in Heq.
    apply Nat.ltb_ge in Hlen.
    unfold bind at 1, bind at 1. unfold modify at 1 2.
    rewrite Hn, He, Hp, Hc, Heq, Hlen. cbn [orb negb].
    unfold try_catch, bind at 1, Signup.fetch.
    cbn [Signup.requests Signup.set_messageClasses Signup.set_messageText].
    destruct (env (List.length (Signup.requests p))) as [|r]; [reflexivity|].
    unfold bind, response_json, read.
    destruct (json_body r) as [data|]; [|reflexivity].
    cbn [ret].
    destruct (ok r), (prop data "message"); reflexivity.
Qed.

Lemma signup_validation_witness :
  let p := Signup.mkPage EmptyString ["message-area"] "/signup.html" [] [] [] in
  let p' := snd (Signup.submit (answers []) "Ada" "a@b.com" "abcdef" "abcdxx" p) in
  spec_verdict (Signup.trim "Ada") (Signup.trim "a@b.com") "abcdef" "abcdxx"
    (Some "Passwords do not match.")
  /\ Signup.messageText p' = "Passwords do not match."
  /\ Signup.requests p' = [].
Proof.
  intros p p'.
  assert (Hv : spec_verdict (Signup.trim "Ada") (Signup.trim "a@b.com") "abcdef" "abcdxx"
                 (Some "Passwords do not match."))
    by (apply verdict_mismatch; discriminate).
  pose proof (signup_validation (answers []) "Ada" "a@b.com" "abcdef" "abcdxx" _ p Hv) as H.
  split; [exact Hv|].
  split; [exact (proj1 H)|exact (proj1 (proj2 (proj2 H)))].
Defined.

(** ** The success path of an action *)

Lemma keeps_ret {A} (a : A) : keeps_requests (ret a).
Proof. intros p. reflexivity. Qed.

Lemma keeps_throw {A} (e : exn) : keeps_requests (@throw page A e).
Proof. intros p. reflexivity. Qed.

Lemma keeps_bind {A B} (m : JSM A) (k : A -> JSM B) :
  keeps_requests m -> (forall a, keeps_requests (k a)) -> keeps_requests (bind m k).
Proof.
  intros Hm Hk p. unfold bind. specialize (Hm p).
  destruct (m p) as [[a|e] q]; cbn [snd] in *; [|exact Hm].
  now rewrite Hk.
Qed.

Lemma keeps_try_catch {A} (m : JSM A) (h : exn -> JSM A) :
  keeps_requests m -> (forall e, keeps_requests (h e)) -> keeps_requests (try_catch m h).
Proof.
  intros Hm Hh p. unfold try_catch. specialize (Hm p).
  destruct (m p) as [[a|e] q]; cbn [snd] in *; [exact Hm|].
  now rewrite Hh.
Qed.

Lemma keeps_modify (f : page -> page) :
  (forall p, requests (f p) = requests p) -> keeps_requests (modify f).
Proof. intros Hf p. apply Hf. Qed.

Lemma keeps_read (v : value) (key : string) : keeps_requests (@read page v key).
Proof. intros p. unfold read. destruct (prop v key); reflexivity. Qed.

Lemma keeps_setStatusMessage (message type : value) :
  keeps_requests (setStatusMessage message type).
Proof. intros p. rewrite setStatusMessage_run. reflexivity. Qed.

Lemma keeps_renderCourses (courses : value) (t : target_list) (ty : value) :
  keeps_requests (renderCourses courses t ty).
Proof. intros p. rewrite renderCourses_run. destruct t; reflexivity. Qed.

Lemma keeps_response_json (r : response) : keeps_requests (@response_json page r).
Proof. intros p. unfold response_json. destruct (json_body r); reflexivity. Qed.

Create HintDb keeps.

#[local] Hint Resolve keeps_ret keeps_throw keeps_read keeps_setStatusMessage
  keeps_renderCourses keeps_response_json : keeps.

(** The dashboard fetch issues exactly one request, whatever the answer,
    and never throws. *)
Lemma fetchDashboardData_once (env : nat -> fetch_outcome) (p : page) :
  fst (fetchDashboardData env p) = Val tt
  /\ requests (snd (fetchDashboardData env p))
     = (requests p ++ [mkRequest "GET" "/api/dashboard" None])%list.
Proof.
  unfold fetchDashboardData.
  match goal with |- context [try_catch ?m ?h] => set (body := m); set (handler := h) end.
  assert (Hh : forall e q, fst (handler e q) = Val tt /\ requests (snd (handler e q)) = requests q).
  { intros e q. subst handler. unfold bind, console_error, modify.
    rewrite setStatusMessage_run. split; reflexivity. }
  assert (Hb : requests (snd (body p))
               = (requests p ++ [mkRequest "GET" "/api/dashboard" None])%list).
  { subst body. unfold bind at 1, fetch.
    destruct (env (List.length (requests p))) as [|r]; [reflexivity|].
    transitivity (requests (set_requests
                              (requests p ++ [mkRequest "GET" "/api/dashboard" None]) p));
      [|reflexivity].
    match goal with |- requests (snd (?k ?q)) = requests ?q =>
      generalize q; change (keeps_requests k) end.
    cbv beta.
    destruct (ok r); [|destruct ((status r =? 401) || (status r =? 403))].
    - repeat first [ solve [auto with keeps]
                   | apply keeps_modify; intros ?; reflexivity
                   | apply keeps_bind; [|intros ?] ].
      destruct (truthy _); repeat first [ solve [auto with keeps]
                   | apply keeps_modify; intros ?; reflexivity
                   | apply keeps_bind; [|intros ?] ].
      destruct (truthy _); repeat first [ solve [auto with keeps]
                   | apply keeps_modify; intros ?; reflexivity
                   | apply keeps_bind; [|intros ?] ].
    - unfold console_log, setTimeout. repeat first [ solve [auto with keeps]
                   | apply keeps_modify; intros ?; reflexivity
                   | apply keeps_bind; [|intros ?] ].
    - unfold console_error. repeat first [ solve [auto with keeps]
                   | apply keeps_modify; intros ?; reflexivity
                   | apply keeps_bind; [|intros ?] ]. }
  unfold try_catch. destruct (body p) as [[[]|e] q]; cbn [fst snd] in *.
  - split; [reflexivity|exact Hb].
  - destruct (Hh e q) as [H1 H2]. split; [exact H1|]. now rewrite H2.
Qed.



(** ** The examples of the specification *)

Example signup_blocks_empty_name :
  let p := Signup.mkPage EmptyString ["message-area"] "/signup.html" [] [] [] in
  let p' := snd (Signup.submit (answers []) EmptyString "a@b.com" "pw123456" "pw123456" p) in
  Signup.messageText p' = "Please fill in all fields." /\ Signup.requests p' = [].
Proof. split; reflexivity. Qed.

Example signup_blocks_blank_name :
  let p := Signup.mkPage EmptyString ["message-area"] "/signup.html" [] [] [] in
  let p' := snd (Signup.submit (answers []) "   " "a@b.com" "pw123456" "pw123456" p) in
  Signup.messageText p' = "Please fill in all fields." /\ Signup.requests p' = [].
Proof. split; reflexivity. Qed.

Example signup_blocks_short_password :
  let p := Signup.mkPage EmptyString ["message-area"] "/signup.html" [] [] [] in
  let p' := snd (Signup.submit (answers []) "Ada" "a@b.com" "abc" "abc" p) in
  Signup.messageText p' = "Password must be at least 6 characters long."
  /\ Signup.requests p' = [].
Proof. split; reflexivity. Qed.

Example signup_posts_valid_form :
  let p := Signup.mkPage EmptyString ["message-area"] "/signup.html" [] [] [] in
  let created := mkResponse 201 "CREATED" (Some (VObj [])) EmptyString in
  let p' := snd (Signup.submit (answers [Responded created])
                   " Ada " "a@b.com" "pw123456" "pw123456" p) in
  Signup.requests p' = [Signup.signup_request "Ada" "a@b.com" "pw123456"]
  /\ Signup.messageText p' = "Signup successful! Redirecting to login..."
  /\ Signup.redirects p' = [2000].
Proof. repeat split. Qed.

Example dashboard_401_renders_nothing :
  let r := mkResponse 401 "UNAUTHORIZED" None EmptyString in
  let p' := handle (answers [Responded r]) Loaded initial_page in
  enrolledList p' = [] /\ availableList p' = [] /\ finishedList p' = []
  /\ location (handle (answers [Responded r]) (TimerFires 0) p') = "/login.html".
Proof. repeat split. Qed.

Example enroll_409_shows_server_message :
  let r := mkResponse 409 "CONFLICT"
             (Some (VObj [("message", VStr "Already enrolled")])) EmptyString in
  let p' := handle (answers [Responded r])
              (ClickAvailable (mkTarget ["enroll-button"] (Some "7"))) initial_page in
  statusMessage p' = "Already enrolled"
  /\ class_contains "error-message" (statusClasses p') = true
  /\ requests p' = [course_request "/api/enroll" "7"].
Proof. repeat split. Qed.

Example dashboard_renders_three_buckets :
  let course (id : Z) (name : string) :=
    VObj [("course_id", VNum id); ("name", VStr name)] in
  let data := VObj [("student", VObj [("name", VStr "Ada")]);
                    ("enrolled", VArr [course 1 "Algebra"]);
                    ("available", VArr [course 2 "Biology"; course 3 "Chemistry"])] in
  let r := mkResponse 200 "OK" (Some data) EmptyString in
  let p' := handle (answers [Responded r]) Loaded initial_page in
  studentName p' = "Ada"
  /\ enrolledList p' = [shown_row (VStr "enrolled") (course 1 "Algebra")]
  /\ availableList p' = [shown_row (VStr "available") (course 2 "Biology");
                         shown_row (VStr "available") (course 3 "Chemistry")]
  /\ finishedList p' = [Li "No courses finished yet."].
Proof. repeat split. Qed.

(** ** The dashboard fetch, answer by answer *)












(** X4. When the dashboard request fails, or a 2xx answer has a body that
    is not JSON or that parses to [null], nothing is rendered: the status
    is the error 'Could not connect to server to load dashboard.', each
    of the three lists shows its 'Error loading' row, and the student
    name, the timers and the location stay as they were. *)
Theorem dashboard_unreadable_answer :
  forall (env : nat -> fetch_outcome) (p : page),
    unreadable (env (List.length (requests p))) = true ->
    let p' := snd (fetchDashboardData env p) in
    fst (fetchDashboardData env p) = Val tt
    /\ statusMessage p' = "Could not connect to server to load dashboard."
    /\ class_contains "error-message" (statusClasses p') = true
    /\ class_contains "success-message" (statusClasses p') = false
    /\ enrolledList p' = [Li "Error loading enrolled courses."]
    /\ availableList p' = [Li "Error loading available courses."]
    /\ finishedList p' = [Li "Error loading finished courses."]
    /\ studentName p' = studentName p
    /\ timers p' = timers p
    /\ location p' = location p
    /\ requests p' = (requests p ++ [mkRequest "GET" "/api/dashboard" None])%list.
Proof.
  intros env p Hun p'. subst p'.
  remember (fetchDashboardData env p) as run eqn:Hrun.
  unfold fetchDashboardData, try_catch in Hrun.
  unfold bind at 1, fetch in Hrun.
  assert (Hcatch : forall q : page,
    run = (console_error "Error during fetchDashboardData:" ;;
           setStatusMessage (VStr "Could not connect to server to load dashboard.")
             (VStr "error") ;;
           modify (set_enrolledList [Li "Error loading enrolled courses."]) ;;
           modify (set_availableList [Li "Error loading available courses."]) ;;
           modify (set_finishedList [Li "Error loading finished courses."])) q ->
    studentName q = studentName p -> timers q = timers p -> location q = location p ->
    requests q = (requests p ++ [mkRequest "GET" "/api/dashboard" None])%list ->
    fst run = Val tt
    /\ statusMessage (snd run) = "Could not connect to server to load dashboard."
    /\ class_contains "error-message" (statusClasses (snd run)) = true
    /\ class_contains "success-message" (statusClasses (snd run)) = false
    /\ enrolledList (snd run) = [Li "Error loading enrolled courses."]
    /\ availableList (snd run) = [Li "Error loading available courses."]
    /\ finishedList (snd run) = [Li "Error loading finished courses."]
    /\ studentName (snd run) = studentName p
    /\ timers (snd run) = timers p
    /\ location (snd run) = location p
    /\ requests (snd run)
       = (requests p ++ [mkRequest "GET" "/api/dashboard" None])%list).
  { intros q -> Hn Ht Hl Hr. unfold bind, console_error, modify.
    rewrite setStatusMessage_run. page_simpl.
    cbn [is_str String.eqb Ascii.eqb Bool.eqb].
    repeat split; try assumption.
    - apply class_contains_add_same.
    - rewrite class_contains_add_other by reflexivity.
      apply class_contains_remove_same. }
  destruct (env (List.length (requests p))) as [|r]; cbn [unreadable] in Hun.
  - eapply Hcatch; [exact Hrun|reflexivity..].
  - apply andb_true_iff in Hun as [Hok Hbody]. rewrite Hok in Hrun.
    unfold bind at 1, response_json in Hrun.
    destruct (json_body r) as [data|].
    + cbn [ret] in Hrun. unfold bind at 1, read in Hrun.
      destruct data; try discriminate Hbody; cbn [prop throw] in Hrun;
        (eapply Hcatch; [exact Hrun|reflexivity..]).
    + cbn [throw] in Hrun. eapply Hcatch; [exact Hrun|reflexivity..].
Qed.

Lemma dashboard_unreadable_answer_witness :
  let r := mkResponse 200 "OK" None "<html>maintenance</html>" in
  let p' := snd (fetchDashboardData (answers [Responded r]) initial_page) in
  unreadable (answers [Responded r] (List.length (requests initial_page))) = true
  /\ statusMessage p' = "Could not connect to server to load dashboard."
  /\ finishedList p' = [Li "Error loading finished courses."].
Proof.
  intros r p'.
  pose proof (dashboard_unreadable_answer (answers [Responded r]) initial_page eq_refl) as H.
  cbv zeta in H. destruct H as (_ & Hs & _ & _ & _ & _ & Hf & _).
  split; [reflexivity|]. split; [exact Hs|exact Hf].
Defined.

(** X5. A dashboard answer that is neither 2xx nor 401 nor 403 is
    reported with the answer's status text, or 'Unknown error' when that
    is empty; each list shows its 'Could not load' row, and no redirect
    to the login page is armed. *)
Theorem dashboard_other_status :
  forall (env : nat -> fetch_outcome) (p : page) (r : response),
    env (List.length (requests p)) = Responded r ->
    ok r = false ->
    status r <> 401 ->
    status r <> 403 ->
    let p' := snd (fetchDashboardData env p) in
    fst (fetchDashboardData env p) = Val tt
    /\ statusMessage p'
       = ("Error loading dashboard: "
          ++ (if (statusText r =? EmptyString)%string then "Unknown error"
              else statusText r))%string
    /\ class_contains "error-message" (statusClasses p') = true
    /\ enrolledList p' = [Li "Could not load enrolled courses."]
    /\ availableList p' = [Li "Could not load available courses."]
    /\ finishedList p' = [Li "Could not load finished courses."]
    /\ studentName p' = studentName p
    /\ timers p' = timers p
    /\ location p' = location p
    /\ requests p' = (requests p ++ [mkRequest "GET" "/api/dashboard" None])%list.
Proof.
  intros env p r Henv Hok H401 H403 p'. subst p'.
  remember (fetchDashboardData env p) as run eqn:Hrun.
  unfold fetchDashboardData, try_catch in Hrun.
  unfold bind at 1, fetch in Hrun. rewrite Henv, Hok in Hrun.
  apply Z.eqb_neq in H401, H403. rewrite H401, H403 in Hrun. cbn [orb] in Hrun.
  unfold bind, console_error, modify in Hrun. rewrite setStatusMessage_run in Hrun.
  subst run. unfold or_else. cbn [truthy].
  destruct (statusText r =? EmptyString)%string; cbn; repeat split;
    apply class_contains_add_same.
Qed.

Lemma dashboard_other_status_witness :
  let r := mkResponse 500 EmptyString None "boom" in
  let p' := snd (fetchDashboardData (answers [Responded r]) initial_page) in
  ok r = false /\ status r <> 401 /\ status r <> 403
  /\ statusMessage p' = "Error loading dashboard: Unknown error"
  /\ timers p' = [].
Proof.
  intros r p'.
  assert (H401 : status r <> 401) by discriminate.
  assert (H403 : status r <> 403) by discriminate.
  pose proof (dashboard_other_status (answers [Responded r]) initial_page r
                eq_refl eq_refl H401 H403) as H.
  cbv zeta in H. destruct H as (_ & Hs & _ & _ & _ & _ & _ & Ht & _).
  split; [reflexivity|]. split; [exact H401|]. split; [exact H403|].
  split; [exact Hs|exact Ht].
Defined.

(** ** What every handler keeps *)

Lemma preserves_ret {A} (P : page -> Prop) (a : A) : preserves P (ret a).
Proof. intros p Hp. exact Hp. Qed.

Lemma preserves_throw {A} (P : page -> Prop) (e : exn) : preserves P (@throw page A e).
Proof. intros p Hp. exact Hp. Qed.

Lemma preserves_bind {A B} (P : page -> Prop) (m : JSM A) (k : A -> JSM B) :
  preserves P m -> (forall a, preserves P (k a)) -> preserves P (bind m k).
Proof.
  intros Hm Hk p Hp. unfold bind. specialize (Hm p Hp).
  destruct (m p) as [[a|e] q]; cbn [snd] in *; [|exact Hm].
  now apply Hk.
Qed.

Lemma preserves_try_catch {A} (P : page -> Prop) (m : JSM A) (h : exn -> JSM A) :
  preserves P m -> (forall e, preserves P (h e)) -> preserves P (try_catch m h).
Proof.
  intros Hm Hh p Hp. unfold try_catch. specialize (Hm p Hp).
  destruct (m p) as [[a|e] q]; cbn [snd] in *; [exact Hm|].
  now apply Hh.
Qed.

Lemma preserves_read (P : page -> Prop) (v : value) (key : string) :
  preserves P (@read page v key).
Proof. intros p Hp. unfold read. destruct (prop v key); exact Hp. Qed.

Lemma preserves_response_json (P : page -> Prop) (r : response) :
  preserves P (@response_json page r).
Proof. intros p Hp. unfold response_json. destruct (json_body r); exact Hp. Qed.

Section Stable.

Variable P : page -> Prop.
Hypothesis HP : stable P.

Lemma preserves_setStatusMessage (message type : value) :
  preserves P (setStatusMessage message type).
Proof. intros p Hp. now apply (stable_status P HP). Qed.

Lemma preserves_renderCourses (courses : value) (t : target_list) (ty : value) :
  preserves P (renderCourses courses t ty).
Proof.
  intros p Hp. rewrite renderCourses_run. cbn [snd]. now apply (stable_children P HP).
Qed.

Lemma preserves_console (lv : level) (msg : string) :
  preserves P (modify (fun p => set_console (console p ++ [(lv, msg)]) p)).
Proof. intros p Hp. now apply (stable_console P HP). Qed.

Lemma preserves_setTimeout (cb : callback) (ms : Z) : preserves P (setTimeout cb ms).
Proof. intros p Hp. now apply (stable_timers P HP). Qed.

Lemma preserves_list (t : target_list) (rows : list li) :
  preserves P (modify (set_children t rows)).
Proof. intros p Hp. now apply (stable_children P HP). Qed.

Lemma preserves_studentName (x : string) : preserves P (modify (set_studentName x)).
Proof. intros p Hp. now apply (stable_studentName P HP). Qed.

Lemma preserves_fetch (env : nat -> fetch_outcome) (req : request) :
  preserves P (fetch env req).
Proof.
  intros p Hp. unfold fetch.
  destruct (env (List.length (requests p))); now apply (stable_requests P HP).
Qed.

Lemma preserves_clearStatusMessageAfterDelay (delay : Z) :
  preserves P (clearStatusMessageAfterDelay delay).
Proof.
  intros p Hp. rewrite clearStatusMessageAfterDelay_run. cbn [snd].
  destruct (is_action_message (statusMessage p)); [|exact Hp].
  now apply (stable_timers P HP).
Qed.

Lemma preserves_fetchDashboardData (env : nat -> fetch_outcome) :
  preserves P (fetchDashboardData env).
Proof.
  unfold fetchDashboardData, console_log, console_error.
  apply preserves_try_catch.
  - apply preserves_bind; [apply preserves_fetch|]. intros r.
    destruct (ok r); [|destruct ((status r =? 401) || (status r =? 403))].
    + apply preserves_bind; [apply preserves_response_json|]. intros data.
      apply preserves_bind; [apply preserves_read|]. intros student.
      apply preserves_bind.
      { destruct (truthy student); [|apply preserves_studentName].
        apply preserves_bind; [apply preserves_read|]. intros name.
        destruct (truthy name); apply preserves_studentName. }
      intros _.
      repeat (apply preserves_bind;
              [first [apply preserves_read | apply preserves_renderCourses]|intros ?]).
      apply preserves_renderCourses.
    + apply preserves_bind; [apply preserves_console|]. intros _.
      apply preserves_bind; [apply preserves_setStatusMessage|]. intros _.
      apply preserves_setTimeout.
    + apply preserves_bind; [apply preserves_console|]. intros _.
      apply preserves_bind; [apply preserves_setStatusMessage|]. intros _.
      apply preserves_bind; [apply (preserves_list EnrolledList)|]. intros _.
      apply preserves_bind; [apply (preserves_list AvailableList)|]. intros _.
      apply (preserves_list FinishedList).
  - intros e.
    apply preserves_bind; [apply preserves_console|]. intros _.
    apply preserves_bind; [apply preserves_setStatusMessage|]. intros _.
    apply preserves_bind; [apply (preserves_list EnrolledList)|]. intros _.
    apply preserves_bind; [apply (preserves_list AvailableList)|]. intros _.
    apply (preserves_list FinishedList).
Qed.

Lemma preserves_perform (env : nat -> fetch_outcome) (m : mutation) (courseId : string) :
  preserves P (perform env m courseId).
Proof.
  destruct m; unfold perform, enrollInCourse, disenrollFromCourse, markCourseAsFinished,
    console_error.
  all: apply preserves_bind; [apply preserves_setStatusMessage|]; intros _.
  all: apply preserves_bind; [|intros _; apply preserves_clearStatusMessageAfterDelay].
  all: apply preserves_try_catch;
    [|intros e; apply preserves_bind; [apply preserves_console|]; intros _;
      apply preserves_setStatusMessage].
  all: apply preserves_bind; [apply preserves_fetch|]; intros r.
  all: cbv zeta; destruct (ok r).
  all: try (apply preserves_bind; [apply preserves_read|]; intros message;
            apply preserves_bind; [apply preserves_setStatusMessage|]; intros _;
            apply preserves_fetchDashboardData).
  all: apply preserves_bind; [apply preserves_setStatusMessage|]; intros _;
    apply preserves_console.
Qed.

Lemma preserves_availableList_click (env : nat -> fetch_outcome) (t : click_target) :
  preserves P (availableList_click env t).
Proof.
  unfold availableList_click, console_error.
  destruct (class_contains "enroll-button" (classList t)); [|apply preserves_ret].
  destruct (courseId_given t) as [courseId|].
  - apply (preserves_perform env Enroll).
  - apply preserves_bind; [apply preserves_console|]. intros _.
    apply preserves_setStatusMessage.
Qed.

Lemma preserves_enrolledList_click (env : nat -> fetch_outcome) (t : click_target) :
  preserves P (enrolledList_click env t).
Proof.
  unfold enrolledList_click.
  destruct (courseId_given t) as [courseId|]; [|apply preserves_ret].
  destruct (class_contains "disenroll-button" (classList t));
    [apply (preserves_perform env Disenroll)|].
  destruct (class_contains "mark-finished-button" (classList t));
    [apply (preserves_perform env MarkFinished)|apply preserves_ret].
Qed.

End Stable.

Lemma stable_location (v : string) : stable (fun q => location q = v).
Proof.
  constructor; intros; try assumption.
  - destruct t; assumption.
  - rewrite setStatusMessage_run. assumption.
Qed.

Lemma stable_kinds_exclusive : stable kinds_exclusive.
Proof.
  constructor; intros; try assumption.
  - destruct t; assumption.
  - unfold kinds_exclusive. rewrite setStatusMessage_run. page_simpl.
    destruct (is_str type "success"); [|destruct (is_str type "error")].
    + rewrite (class_contains_add_other "error-message" "success-message") by reflexivity.
      rewrite class_contains_remove_same. apply andb_false_r.
    + rewrite (class_contains_add_other "success-message" "error-message") by reflexivity.
      rewrite class_contains_remove_same. reflexivity.
    + rewrite class_contains_remove_same. apply andb_false_r.
Qed.

(** X6. Only two things navigate away from the dashboard: a click on the
    logout button and the firing of the redirect timer armed by a 401 or
    403 answer, both to /login.html. Loading the dashboard, a click in a
    course list with whatever answers follow, and the firing of a status
    timer leave the location as it was. *)
Theorem only_logout_and_redirect_navigate :
  forall (env : nat -> fetch_outcome) (ev : event) (p : page),
    location (handle env ev p)
    = match ev with
      | ClickLogout => "/login.html"
      | TimerFires n =>
          match nth_error (timers p) n with
          | Some (mkTimer GoToLogin _) => "/login.html"
          | _ => location p
          end
      | _ => location p
      end.
Proof.
  intros env ev p. destruct ev as [|t|t| |n]; cbn [handle].
  - now apply (preserves_fetchDashboardData _ (stable_location (location p))).
  - now apply (preserves_availableList_click _ (stable_location (location p))).
  - now apply (preserves_enrolledList_click _ (stable_location (location p))).
  - unfold logout_click, bind, modify.
    destruct (setStatusMessage _ _ p) as [[[]|e] q] eqn:E;
      [|rewrite setStatusMessage_run in E; discriminate E].
    unfold try_catch, fetch, console_warn, modify.
    destruct (env (List.length (requests q))); reflexivity.
  - destruct (nth_error (timers p) n) as [[[|] ms]|]; reflexivity.
Qed.

(** X7. The two kind classes of the status element exclude each other
    throughout a session: if the status element does not carry both
    'success-message' and 'error-message' to begin with, it never does
    after any sequence of loads, clicks and timers, whatever the
    network answers. *)
Theorem kinds_exclusive_invariant :
  forall (env : nat -> fetch_outcome) (evs : list event) (p : page),
    kinds_exclusive p -> kinds_exclusive (run env evs p).
Proof.
  intros env evs. unfold run.
  induction evs as [|ev evs IH]; intros p Hp; [exact Hp|].
  cbn [fold_left]. apply IH.
  destruct ev as [|t|t| |n]; cbn [handle].
  - now apply (preserves_fetchDashboardData _ stable_kinds_exclusive).
  - now apply (preserves_availableList_click _ stable_kinds_exclusive).
  - now apply (preserves_enrolledList_click _ stable_kinds_exclusive).
  - revert p Hp. change (preserves kinds_exclusive (logout_click env)).
    unfold logout_click, console_warn.
    apply preserves_bind;
      [apply (preserves_setStatusMessage _ stable_kinds_exclusive)|]. intros _.
    apply preserves_bind; [|intros _ q Hq; exact Hq].
    apply preserves_try_catch.
    + apply preserves_bind; [apply (preserves_fetch _ stable_kinds_exclusive)|].
      intros r. apply preserves_ret.
    + intros e. apply (preserves_console _ stable_kinds_exclusive).
  - destruct (nth_error (timers p) n) as [[[|] ms]|]; [| exact Hp | exact Hp].
    unfold kinds_exclusive. cbn [action run_callback]. page_simpl.
    rewrite class_contains_remove_same. apply andb_false_r.
Qed.

Lemma kinds_exclusive_invariant_witness :
  let done := Responded (mkResponse 200 "OK" (Some (VObj [])) "{}") in
  let env := answers [done; done; done] in
  let evs := [Loaded; ClickAvailable (mkTarget ["enroll-button"] (Some "7"));
              TimerFires 0] in
  kinds_exclusive initial_page /\ kinds_exclusive (run env evs initial_page).
Proof.
  intros done env evs.
  assert (H0 : kinds_exclusive initial_page) by reflexivity.
  split; [exact H0|exact (kinds_exclusive_invariant env evs initial_page H0)].
Defined.

(** ** Actions, outcome by outcome *)

(** An action after a request that failed. *)
Lemma perform_failed_run (env : nat -> fetch_outcome) (m : mutation)
    (courseId : string) (p : page) :
  failed (env (List.length (requests p))) = true ->
  perform env m courseId p
  = clearStatusMessageAfterDelay 3000
      (match env (List.length (requests p)) with
       | Rejected => caught m (sent m courseId p)
       | Responded r =>
           let q := snd (setStatusMessage
                           (or_else (opt_prop (response_json_or_null r) "message")
                              (VStr (failure_default m ++ status_suffix r)))
                           (VStr "error") (sent m courseId p)) in
           set_console (console q ++ [(ErrorLevel, failure_label m)]) q
       end).
Proof.
  intros Hfail. unfold sent, caught.
  destruct m; unfold perform, enrollInCourse, disenrollFromCourse, markCourseAsFinished.
  all: unfold bind at 1; rewrite !setStatusMessage_run.
  all: unfold bind at 1, try_catch, bind at 1, fetch.
  all: cbn [requests set_statusClasses set_statusMessage snd].
  all: destruct (env (List.length (requests p))) as [|r]; cbn [failed] in Hfail.
  all: try (apply negb_true_iff in Hfail; rewrite Hfail).
  all: unfold bind, console_error, modify; rewrite !setStatusMessage_run.
  all: reflexivity.
Qed.

(** An action after a 2xx answer. *)
Lemma perform_ok_run (env : nat -> fetch_outcome) (m : mutation)
    (courseId : string) (p : page) (r : response) :
  env (List.length (requests p)) = Responded r ->
  ok r = true ->
  perform env m courseId p
  = clearStatusMessageAfterDelay 3000
      (if nullish (response_json_or_null r)
       then caught m (sent m courseId p)
       else snd (fetchDashboardData env
                   (snd (setStatusMessage
                           (or_else (opt_prop (response_json_or_null r) "message")
                              (VStr (success_default m)))
                           (VStr "success") (sent m courseId p))))).
Proof.
  intros Henv Hok. unfold sent, caught.
  destruct m; unfold perform, enrollInCourse, disenrollFromCourse, markCourseAsFinished.
  all: unfold bind at 1; rewrite !setStatusMessage_run.
  all: unfold bind at 1, try_catch, bind at 1, fetch.
  all: cbn [requests set_statusClasses set_statusMessage snd].
  all: rewrite Henv, Hok.
  all: unfold bind at 1, read, opt_prop.
  all: destruct (response_json_or_null r); cbn [prop ret throw nullish].
  all: try (unfold bind, console_error, modify; rewrite !setStatusMessage_run;
            reflexivity).
  all: unfold bind at 1; rewrite !setStatusMessage_run.
  all: match goal with |- ?lhs = _ =>
         match lhs with context [fetchDashboardData ?e ?q] =>
           rewrite (surjective_pairing (fetchDashboardData e q)),
             (proj1 (fetchDashboardData_once e q))
         end end.
  all: reflexivity.
Qed.









(** ** Which statuses are cleared after the delay *)









(** ** Handlers end normally *)

Lemma returns_ret {A} (a : A) : returns (ret a).
Proof. intros p. now exists a. Qed.

Lemma returns_modify (f : page -> page) : returns (modify f).
Proof. intros p. now exists tt. Qed.

Lemma returns_bind {A B} (m : JSM A) (k : A -> JSM B) :
  returns m -> (forall a, returns (k a)) -> returns (bind m k).
Proof.
  intros Hm Hk p. unfold bind. destruct (Hm p) as [a Ha].
  destruct (m p) as [res q]. cbn [fst] in Ha. subst res. apply Hk.
Qed.

Lemma returns_try_catch {A} (m : JSM A) (h : exn -> JSM A) :
  (forall e, returns (h e)) -> returns (try_catch m h).
Proof.
  intros Hh p. unfold try_catch.
  destruct (m p) as [[a|e] q]; [now exists a|apply Hh].
Qed.

Lemma returns_setStatusMessage (message type : value) :
  returns (setStatusMessage message type).
Proof. intros p. exists tt. now rewrite setStatusMessage_run. Qed.

Lemma returns_perform (env : nat -> fetch_outcome) (m : mutation) (courseId : string) :
  returns (perform env m courseId).
Proof.
  intros p. exists tt.
  destruct (failed (env (List.length (requests p)))) eqn:Hfail.
  - rewrite perform_failed_run by exact Hfail.
    now rewrite clearStatusMessageAfterDelay_run.
  - destruct (env (List.length (requests p))) as [|r] eqn:Henv; [discriminate Hfail|].
    cbn [failed] in Hfail. apply negb_false_iff in Hfail.
    rewrite (perform_ok_run env m courseId p r Henv Hfail).
    now rewrite clearStatusMessageAfterDelay_run.
Qed.

(** X11. No listener of the dashboard throws: the dashboard fetch, the
    three actions, the two click listeners and the logout listener end
    normally from every page and for every answer of the network, a
    failed request, a body that is not JSON and a malformed bucket
    included. *)
Theorem handlers_return :
  forall env : nat -> fetch_outcome,
    returns (fetchDashboardData env)
    /\ (forall courseId, returns (enrollInCourse env courseId))
    /\ (forall courseId, returns (disenrollFromCourse env courseId))
    /\ (forall courseId, returns (markCourseAsFinished env courseId))
    /\ (forall t, returns (availableList_click env t))
    /\ (forall t, returns (enrolledList_click env t))
    /\ returns (logout_click env).
Proof.
  intros env. repeat split.
  - intros p. exists tt. apply fetchDashboardData_once.
  - intros courseId. apply (returns_perform env Enroll).
  - intros courseId. apply (returns_perform env Disenroll).
  - intros courseId. apply (returns_perform env MarkFinished).
  - intros t. unfold availableList_click.
    destruct (class_contains "enroll-button" (classList t)); [|apply returns_ret].
    destruct (courseId_given t) as [courseId|]; [apply (returns_perform env Enroll)|].
    apply returns_bind; [apply returns_modify|intros _; apply returns_setStatusMessage].
  - intros t. unfold enrolledList_click.
    destruct (courseId_given t) as [courseId|]; [|apply returns_ret].
    destruct (class_contains "disenroll-button" (classList t));
      [apply (returns_perform env Disenroll)|].
    destruct (class_contains "mark-finished-button" (classList t));
      [apply (returns_perform env MarkFinished)|apply returns_ret].
  - unfold logout_click.
    apply returns_bind; [apply returns_setStatusMessage|]. intros _.
    apply returns_bind; [|intros _; apply returns_modify].
    apply returns_try_catch. intros e. apply returns_modify.
Qed.

(** X12. A click on the logout button always ends on the login page: it
    shows 'Logging out...' without a kind class, issues one POST to
    /api/logout, logs a warning when that request fails, and sets the
    location to /login.html whatever the answer; lists and timers stay. *)
Theorem logout_always_redirects :
  forall (env : nat -> fetch_outcome) (p : page),
    let p' := snd (logout_click env p) in
    location p' = "/login.html"
    /\ statusMessage p' = "Logging out..."
    /\ class_contains "success-message" (statusClasses p') = false
    /\ class_contains "error-message" (statusClasses p') = false
    /\ requests p' = (requests p ++ [mkRequest "POST" "/api/logout" None])%list
    /\ console p' = (console p
                     ++ match env (List.length (requests p)) with
                        | Rejected => [(WarnLevel, "Logout request failed:")]
                        | Responded _ => []
                        end)%list
    /\ enrolledList p' = enrolledList p
    /\ availableList p' = availableList p
    /\ finishedList p' = finishedList p
    /\ timers p' = timers p.
Proof.
  intros env p p'. subst p'.
  remember (logout_click env p) as run eqn:Hrun.
  unfold logout_click in Hrun. unfold bind at 1 in Hrun.
  rewrite setStatusMessage_run in Hrun.
  unfold bind, try_catch, fetch, console_warn, modify, ret in Hrun.
  page_simpl in Hrun. cbn [is_str String.eqb Ascii.eqb Bool.eqb] in Hrun.
  destruct (env (List.length (requests p))); subst run; page_simpl;
    rewrite ?app_nil_r; repeat split; try apply class_contains_remove_same;
    rewrite class_contains_remove_other by reflexivity;
    apply class_contains_remove_same.
Qed.



(** ** Signup and login, answer by answer *)



(** ** The previous revision of the dashboard fetch *)


